(** * vault-operator: the VaultSecret controller

    A shallow embedding of [controllers/vaultsecret_controller.go] and the
    properties of its reconciliation loop.

    Go values are modelled as follows.
    - [string] is a sequence of 8-bit characters ([String.string]) and
      [[]byte(s)] is [String.list_byte_of_string s].
    - [map[K]V] is [gmap K V]: keys are unique and iteration order is not
      observable in the results computed here.
    - [interface{}] values decoded from a Vault response are the inductive
      type [vaultapi.iface].
    - [error] is [option error], [None] being [nil]; a pointer that may be
      [nil] is an [option].
    - a multi-value return [(T, error)] is a pair.
    - a run-time panic (failed type assertion, nil dereference) is the
      [Panic] leaf of a program, resp. the [Panicked] outcome of a run. *)

From Stdlib Require Import Strings.Byte.
From stdpp Require Import base option list strings gmap fin_maps.

Set Default Proof Using "Type".

(** ** Errors *)

(** The Go [error] values the controller creates or inspects:
    [errors.New] strings and API status errors, whose reason and HTTP code
    are what [apierrors.IsNotFound] looks at. Errors of the collaborators
    (file system, Vault client, API server) are values of this type as
    well. *)
Inductive error : Type :=
  | errorString (s : string)
  | StatusError (reason : string) (code : Z) (message : string).

Module errors.
Definition New (text : string) : error := errorString text.
End errors.

Module apierrors.
Definition StatusReasonNotFound : string := "NotFound".
Definition StatusReasonAlreadyExists : string := "AlreadyExists".

Definition StatusReasonUnknown : string := "".

(** The reasons the API machinery knows; a status with any other reason is
    judged by its HTTP code. *)
Definition knownReasons : list string :=
  [ "Unauthorized"; "Forbidden"; "NotFound"; "AlreadyExists"; "Conflict";
    "Gone"; "Invalid"; "ServerTimeout"; "Timeout"; "TooManyRequests";
    "BadRequest"; "MethodNotAllowed"; "NotAcceptable";
    "RequestEntityTooLarge"; "UnsupportedMediaType"; "InternalServerError";
    "Expired"; "ServiceUnavailable" ].

(** [reasonAndCodeForError]: an error that is no API status has the unknown
    reason and code 0. *)
Definition reasonAndCodeForError (err : option error) : string * Z :=
  match err with
  | Some (StatusError reason code _) => (reason, code)
  | _ => (StatusReasonUnknown, 0%Z)
  end.

(** [apierrors.IsNotFound]: the reason is NotFound, or the reason is not a
    known one and the code is 404. *)
Definition IsNotFound (err : option error) : bool :=
  match reasonAndCodeForError err with
  | (reason, code) =>
      bool_decide (reason = StatusReasonNotFound)
      || (negb (bool_decide (reason ∈ knownReasons))
          && bool_decide (code = 404%Z))
  end.
End apierrors.

Module client.
Definition IgnoreNotFound (err : option error) : option error :=
  if apierrors.IsNotFound err then None else err.
End client.

(** ** Kubernetes objects *)

Module types.
Record NamespacedName : Type := mkNamespacedName
  { Namespace : string; Name : string }.
End types.

Module metav1.
Record OwnerReference : Type := mkOwnerReference
  { APIVersion : string;
    Kind : string;
    Name : string;
    UID : string;
    Controller : option bool;
    BlockOwnerDeletion : option bool }.

Record ObjectMeta : Type := mkObjectMeta
  { OName : string;
    ONamespace : string;
    OUID : string;
    Annotations : gmap string string;
    OwnerReferences : list OwnerReference }.

Record TypeMeta : Type := mkTypeMeta
  { TKind : string; TAPIVersion : string }.
End metav1.

Module core.
Record Secret : Type := mkSecret
  { ObjectMeta : metav1.ObjectMeta;
    Data : gmap string (list byte) }.

Definition Name (s : Secret) : string := metav1.OName (ObjectMeta s).
Definition Namespace (s : Secret) : string := metav1.ONamespace (ObjectMeta s).
Definition Annotations (s : Secret) : gmap string string :=
  metav1.Annotations (ObjectMeta s).
Definition OwnerReferences (s : Secret) : list metav1.OwnerReference :=
  metav1.OwnerReferences (ObjectMeta s).

(** [&core.Secret{}] *)
Definition zero : Secret :=
  mkSecret (metav1.mkObjectMeta "" "" "" ∅ []) ∅.
End core.

(** The custom resource [appsv1.VaultSecret]. Its declaration lives in the
    [api/v1] package; the fields below are the ones the controller reads. *)
Module appsv1.
Record VaultSecretSpec : Type := mkVaultSecretSpec
  { VaultAddress : string;
    Path : string;
    Role : string;
    AuthPath : string }.

Record VaultSecret : Type := mkVaultSecret
  { TypeMeta : metav1.TypeMeta;
    ObjectMeta : metav1.ObjectMeta;
    Spec : VaultSecretSpec }.

Definition Name (es : VaultSecret) : string := metav1.OName (ObjectMeta es).
Definition Namespace (es : VaultSecret) : string :=
  metav1.ONamespace (ObjectMeta es).
Definition UID (es : VaultSecret) : string := metav1.OUID (ObjectMeta es).
Definition Kind (es : VaultSecret) : string := metav1.TKind (TypeMeta es).
Definition APIVersion (es : VaultSecret) : string :=
  metav1.TAPIVersion (TypeMeta es).

(** [var vaultSecret appsv1.VaultSecret] *)
Definition zero : VaultSecret :=
  mkVaultSecret (metav1.mkTypeMeta "" "") (metav1.mkObjectMeta "" "" "" ∅ [])
                (mkVaultSecretSpec "" "" "" "").
End appsv1.

(** ** Vault API values *)

Module vaultapi.
(** What an [interface{}] holds after the Vault client has decoded a JSON
    response: [nil], a boolean, a number ([json.Number], kept as its
    text), a string, a slice or a string-keyed map. *)
#[warnings="-register-all"]
Inductive iface : Type :=
  | INil
  | IBool (b : bool)
  | INumber (n : string)
  | IString (s : string)
  | ISlice (l : list iface)
  | IMap (m : gmap string iface).

Record SecretAuth : Type := mkSecretAuth { ClientToken : string }.

(** [vaultapi.Secret]: the fields the controller touches. *)
Record Secret : Type := mkSecret
  { Auth : option SecretAuth;
    Data : gmap string iface }.
End vaultapi.

(** ** Scheme and ownership (controller-runtime) *)

Module runtime.
Record GroupVersionKind : Type := mkGVK
  { Group : string; Version : string; Kind : string }.

(** [GroupVersion().String()] *)
Definition GroupVersionString (gvk : GroupVersionKind) : string :=
  if bool_decide (Group gvk = "") then Version gvk
  else Group gvk +:+ "/" +:+ Version gvk.

(** A [*runtime.Scheme], seen from this controller: the kinds it has
    registered for the Go type [appsv1.VaultSecret]. *)
Record Scheme : Type := mkScheme
  { VaultSecretKinds : list GroupVersionKind }.
End runtime.

Module ctrl.
Record Result : Type := mkResult { Requeue : bool }.

(** [ctrl.Result{}] *)
Definition Result0 : Result := mkResult false.

Record Request : Type := mkRequest
  { NamespacedName : types.NamespacedName }.
Definition Name (req : Request) : string :=
  types.Name (NamespacedName req).

(** [apiutil.GVKForObject]: the scheme must know exactly one kind for the
    owner's type. *)
Definition GVKForObject (scheme : runtime.Scheme)
  : runtime.GroupVersionKind + error :=
  match runtime.VaultSecretKinds scheme with
  | [] => inr (errorString "no kind is registered for the type v1.VaultSecret")
  | [gvk] => inl gvk
  | _ => inr (errorString "multiple group-version-kinds associated with type")
  end.

(** [validateOwner]: a namespaced owner must share the namespace of the
    object it owns. *)
Definition validateOwner (owner : appsv1.VaultSecret) (object : core.Secret)
  : option error :=
  let ownerNs := appsv1.Namespace owner in
  if bool_decide (ownerNs ≠ "") then
    let objNs := core.Namespace object in
    if bool_decide (objNs = "") then
      Some (errorString "cluster-scoped resource must not have a namespace-scoped owner")
    else if bool_decide (ownerNs ≠ objNs) then
      Some (errorString "cross-namespace owner references are disallowed")
    else None
  else None.

Definition referSameObject (a b : metav1.OwnerReference) : bool :=
  bool_decide (metav1.APIVersion a = metav1.APIVersion b)
  && bool_decide (metav1.Kind a = metav1.Kind b)
  && bool_decide (metav1.Name a = metav1.Name b).

Definition isController (ref : metav1.OwnerReference) : bool :=
  match metav1.Controller ref with Some true => true | _ => false end.

(** [validateControllerRef]: refuse when another controller owns the object. *)
Definition validateControllerRef (ref : metav1.OwnerReference)
    (controlled : core.Secret) : option error :=
  match List.find isController (core.OwnerReferences controlled) with
  | Some existing =>
      if referSameObject existing ref then None
      else Some (errorString "Object is already owned by another controller")
  | None => None
  end.

Fixpoint upsertOwnerRef (ref : metav1.OwnerReference)
    (refs : list metav1.OwnerReference) : list metav1.OwnerReference :=
  match refs with
  | [] => [ref]
  | r :: refs' =>
      if referSameObject r ref then ref :: refs'
      else r :: upsertOwnerRef ref refs'
  end.

(** [ctrl.SetControllerReference(owner, controlled, scheme)]. The library
    mutates [controlled] in place and returns an error; here the updated
    object is returned next to the error. On an error the object is left
    as it was. *)
Definition SetControllerReference (owner : appsv1.VaultSecret)
    (controlled : core.Secret) (scheme : runtime.Scheme)
  : core.Secret * option error :=
  match validateOwner owner controlled with
  | Some err => (controlled, Some err)
  | None =>
    match GVKForObject scheme with
    | inr err => (controlled, Some err)
    | inl gvk =>
      let ref :=
        metav1.mkOwnerReference (runtime.GroupVersionString gvk)
          (runtime.Kind gvk) (appsv1.Name owner) (appsv1.UID owner)
          (Some true) (Some true) in
      match validateControllerRef ref controlled with
      | Some err => (controlled, Some err)
      | None =>
        let m := core.ObjectMeta controlled in
        (core.mkSecret
           (metav1.mkObjectMeta (metav1.OName m) (metav1.ONamespace m)
              (metav1.OUID m) (metav1.Annotations m)
              (upsertOwnerRef ref (metav1.OwnerReferences m)))
           (core.Data controlled),
         None)
      end
    end
  end.
End ctrl.

(** ** Outcomes of code that may panic *)

Inductive outcome (A : Type) : Type :=
  | Returned (a : A)
  | Panicked.
Arguments Returned {A} a.
Arguments Panicked {A}.

Definition outcome_bind {A B} (f : A → outcome B) (o : outcome A) : outcome B :=
  match o with
  | Returned a => f a
  | Panicked => Panicked
  end.

#[global] Instance outcome_ret : MRet outcome := @Returned.
#[global] Instance outcome_mbind : MBind outcome := @outcome_bind.

(** ** The reconciler *)

Record VaultSecretReconciler : Type := mkReconciler
  { Scheme : runtime.Scheme }.

Record VaultConfig : Type := mkVaultConfig
  { Addr : string;
    AuthMethod : string;
    AuthPath : string;
    Role : string;
    Path : string;
    SkipVerify : bool;
    TLSSecret : string;
    ClientTimeout : Z }.

Definition defaultJWTAuthMethod : string := "jwt".
Definition defaultJWTFile : string :=
  "/var/run/secrets/kubernetes.io/serviceaccount/token".

(** *** SecretMake *)

(** [vv.(string)] *)
Definition assertString (vv : vaultapi.iface) : outcome string :=
  match vv with
  | vaultapi.IString s => Returned s
  | _ => Panicked
  end.

(** [v.(map[string]interface{})] *)
Definition assertMap (v : vaultapi.iface) : outcome (gmap string vaultapi.iface) :=
  match v with
  | vaultapi.IMap m => Returned m
  | _ => Panicked
  end.

(** The inner loop: [for kk, vv := range m { secObjData[kk] = []byte(vv.(string)) }].
    Once an assertion has panicked nothing more is executed. *)
Definition copyData (m : gmap string vaultapi.iface)
    (secObjData : gmap string (list byte)) : outcome (gmap string (list byte)) :=
  map_fold
    (λ kk vv acc,
       secObjData ← acc;
       s ← assertString vv;
       mret (<[kk := String.list_byte_of_string s]> secObjData))
    (Returned secObjData) m.

(** The outer loop: [for k, v := range secret.Data { if k == "data" { ... } }]. *)
Definition rangeData (data : gmap string vaultapi.iface)
    (secObjData : gmap string (list byte)) : outcome (gmap string (list byte)) :=
  map_fold
    (λ k v acc,
       secObjData ← acc;
       if bool_decide (k = "data") then
         m ← assertMap v;
         copyData m secObjData
       else mret secObjData)
    (Returned secObjData) data.

Definition SecretMake (r : VaultSecretReconciler) (es : appsv1.VaultSecret)
    (secret : option vaultapi.Secret) : outcome (core.Secret * option error) :=
  secObjData ←
    match secret with
    | Some secret => rangeData (vaultapi.Data secret) ∅
    | None => mret ∅
    end;
  let s :=
    core.mkSecret
      (metav1.mkObjectMeta (appsv1.Name es) (appsv1.Namespace es) ""
         {[ appsv1.APIVersion es := appsv1.Kind es ]} [])
      secObjData in
  (* establish ownership; the returned error is dropped *)
  let s := (ctrl.SetControllerReference es s (Scheme r)).1 in
  mret (s, None).


(** ** The log sink

    A log call with a well-formed key/value list (an even number of
    entries) just returns. What becomes of an odd list is the sink's
    business: the zap sink of controller-runtime drops the dangling key and
    goes on in production mode, and panics in development mode. *)
Inductive sinkVerdict : Type := SinkLogged | SinkPanicked.

Definition sinkAnswer (even : bool) : Type :=
  if even then unit else sinkVerdict.

Definition logAnswer (keysAndValues : list string) : Type :=
  sinkAnswer (Nat.even (length keysAndValues)).

(** ** Calls to the collaborators

    Everything the controller asks of the outside world: the Kubernetes API
    client, the Vault client library, the process environment, the file
    system and the logger. [resp c] is what the call [c] hands back. *)

Inductive call : Type :=
  | ClientGetVaultSecret (key : types.NamespacedName)
      (* r.Get(ctx, key, &vaultSecret) *)
  | ClientGetSecret (key : types.NamespacedName)
      (* r.Get(ctx, key, found) *)
  | ClientCreate (obj : core.Secret)
      (* r.Client.Create(ctx, secret) *)
  | VaultDefaultConfig
      (* vaultapi.DefaultConfig(), answered by its Error field *)
  | VaultConfigureTLS (Insecure : bool)
      (* clientConfig.ConfigureTLS(&tlsConfig) *)
  | VaultNewClient (Address : string)
      (* vaultapi.NewClient(clientConfig) *)
  | OsGetenv (key : string)
  | IoutilReadFile (filename : string)
  | LogicalWrite (path : string) (data : gmap string vaultapi.iface)
      (* client.Logical().Write(path, data) *)
  | SetToken (v : string)
      (* client.SetToken(v) *)
  | LogicalRead (path : string)
      (* client.Logical().Read(path) *)
  | LogInfo (msg : string)
  | LogError (err : option error) (msg : string) (keysAndValues : list string).

Definition resp (c : call) : Type :=
  match c with
  | ClientGetVaultSecret _ => (appsv1.VaultSecret * option error)%type
  | ClientGetSecret _ => (core.Secret * option error)%type
  | ClientCreate _ => option error
  | VaultDefaultConfig => option error
  | VaultConfigureTLS _ => option error
  | VaultNewClient _ => option error
  | OsGetenv _ => string
  | IoutilReadFile _ => (list byte * option error)%type
  | LogicalWrite _ _ => (option vaultapi.Secret * option error)%type
  | SetToken _ => unit
  | LogicalRead _ => (option vaultapi.Secret * option error)%type
  | LogInfo _ => unit
  | LogError _ _ keysAndValues => logAnswer keysAndValues
  end.

(** ** Programs *)

(** A program either returns, panics, or performs a call and goes on with
    the answer. *)
Inductive prog (A : Type) : Type :=
  | Ret (a : A)
  | Panic
  | Call (c : call) (k : resp c → prog A).
Arguments Ret {A} a.
Arguments Panic {A}.
Arguments Call {A} c k.

Fixpoint prog_bind {A B} (f : A → prog B) (p : prog A) : prog B :=
  match p with
  | Ret a => f a
  | Panic => Panic
  | Call c k => Call c (λ x, prog_bind f (k x))
  end.

#[global] Instance prog_ret : MRet prog := @Ret.
#[global] Instance prog_mbind : MBind prog := @prog_bind.

Definition perform (c : call) : prog (resp c) := Call c Ret.

(** Pure code that may panic, run inside a program. *)
Definition lift {A} (o : outcome A) : prog A :=
  match o with
  | Returned a => Ret a
  | Panicked => Panic
  end.

(** *** newVaultClient

    The client handle itself carries no information the controller reads;
    only the error is returned here. *)
Definition newVaultClient (r : VaultSecretReconciler) (vaultConfig : VaultConfig)
    : prog (option error) :=
  clientConfigError ← perform VaultDefaultConfig;
  match clientConfigError with
  | Some err => mret (Some err)
  | None =>
    (* clientConfig.Address = vaultConfig.Addr *)
    err ← perform (VaultConfigureTLS (SkipVerify vaultConfig));
    match err with
    | Some err => mret (Some err)
    | None => perform (VaultNewClient (Addr vaultConfig))
    end
  end.

(** *** VaultReadSecret *)

(** Lines 166-171: where the service-account token is read from. *)
Definition jwtFilePath : prog string :=
  file ← perform (OsGetenv "KUBERNETES_SERVICE_ACCOUNT_TOKEN");
  if bool_decide (file ≠ "") then mret file
  else
    file ← perform (OsGetenv "VAULT_JWT_FILE");
    if bool_decide (file ≠ "") then mret file
    else mret defaultJWTFile.

Definition loginData (jwt : list byte) (role : string) : gmap string vaultapi.iface :=
  {[ "jwt" := vaultapi.IString (String.string_of_list_byte jwt);
     "role" := vaultapi.IString role ]}.

(** [secret.Auth.ClientToken], with its two nil dereferences. *)
Definition authClientToken (secret : option vaultapi.Secret) : outcome string :=
  match secret with
  | Some secret =>
      match vaultapi.Auth secret with
      | Some auth => Returned (vaultapi.ClientToken auth)
      | None => Panicked
      end
  | None => Panicked
  end.

Definition VaultReadSecret (r : VaultSecretReconciler) (vaultConfig : VaultConfig)
    : prog (option vaultapi.Secret * option error) :=
  _ ← perform (LogInfo ("fetching Vault secret '" +:+ Path vaultConfig
                          +:+ "' from the " +:+ Addr vaultConfig));
  err ← newVaultClient r vaultConfig;
  match err with
  | Some err => mret (None, Some err)
  | None =>
    if bool_decide (AuthMethod vaultConfig ≠ defaultJWTAuthMethod) then
      mret (None, Some (errors.New ("unsupported Auth method: "
                                      +:+ AuthMethod vaultConfig)))
    else
      jwtFile ← jwtFilePath;
      (* TODO in the source: SA JWTs do expire *)
      '(jwt, err) ← perform (IoutilReadFile jwtFile);
      match err with
      | Some err => mret (None, Some err)
      | None =>
        '(secret, err) ←
          perform (LogicalWrite ("auth/" +:+ AuthPath vaultConfig +:+ "/login")
                     (loginData jwt (Role vaultConfig)));
        match err with
        | Some _ =>
            _ ← perform (LogError err "failed to authenticate" []);
            mret (None, err)
        | None =>
          token ← lift (authClientToken secret);
          _ ← perform (SetToken token);
          '(data, err) ← perform (LogicalRead (Path vaultConfig));
          match err with
          | Some _ =>
              _ ← perform (LogError err ("can't read secret '" +:+ Path vaultConfig
                                           +:+ "' from the Vault") []);
              mret (None, err)
          | None => mret (data, None)
          end
        end
      end
  end.

(** *** Reconcile *)

(** The Vault config [Reconcile] derives from the resource. *)
Definition initConfig (vaultSecret : appsv1.VaultSecret) : VaultConfig :=
  let spec := appsv1.Spec vaultSecret in
  let config := mkVaultConfig "" "" "" "" "" false "" 0 in
  mkVaultConfig
    (appsv1.VaultAddress spec)
    defaultJWTAuthMethod
    (if bool_decide (0 < String.length (appsv1.AuthPath spec))%nat
     then appsv1.AuthPath spec else "kubernetes")
    (appsv1.Role spec)
    (appsv1.Path spec)
    (SkipVerify config) (TLSSecret config) (ClientTimeout config).

(** [err != nil] *)
Definition notNil (err : option error) : bool :=
  match err with Some _ => true | None => false end.

Definition Reconcile (r : VaultSecretReconciler) (req : ctrl.Request)
    : prog (ctrl.Result * option error) :=
  _ ← perform (LogInfo ("starting vaultSecretReconciler for: '"
                          +:+ ctrl.Name req +:+ "'"));
  '(vaultSecret, err) ← perform (ClientGetVaultSecret (ctrl.NamespacedName req));
  if notNil err then
    _ ← perform (LogError err "unable to get vaultSecret resource" []);
    (* not-found errors are ignored: they cannot be fixed by a requeue *)
    mret (ctrl.Result0, client.IgnoreNotFound err)
  else
    (* Init Vault config *)
    let config := initConfig vaultSecret in
    (* Check if the vaultSecret's child Secret already exists *)
    '(found, err) ←
      perform (ClientGetSecret
                 (types.mkNamespacedName (appsv1.Namespace vaultSecret)
                                         (appsv1.Name vaultSecret)));
    if notNil err && negb (apierrors.IsNotFound err) then
      (* the key [vaultSecret.Name] comes without a value: the sink decides *)
      verdict ← perform (LogError err "unable to get child Secret for the"
                           [appsv1.Name vaultSecret]);
      match verdict with
      | SinkPanicked => Panic
      | SinkLogged => mret (ctrl.Result0, err)
      end
    else if apierrors.IsNotFound err then
      (* Fetch the Secret data *)
      '(secData, err) ← VaultReadSecret r config;
      _ ← (if notNil err
           then perform (LogError err "can't read the data from the Vault" [])
           else mret tt);
      '(secret, err) ← lift (SecretMake r vaultSecret secData);
      if notNil err then
        _ ← perform (LogError err ("Failed to generate a Secret resource for the "
                                     +:+ core.Name secret) []);
        mret (ctrl.Result0, err)
      else
        _ ← perform (LogInfo ("deploying a new child Secret: " +:+ core.Name secret
                                +:+ " at " +:+ core.Namespace secret
                                +:+ " namespace"));
        err ← perform (ClientCreate secret);
        if notNil err then
          _ ← perform (LogError err ("failed to deploy a child Secret "
                                       +:+ core.Name secret +:+ " at "
                                       +:+ core.Namespace secret
                                       +:+ " namespace") []);
          mret (ctrl.Result0, err)
        else
          (* Child Secret is created successfully, return and requeue *)
          mret (ctrl.mkResult true, None)
    else
      mret (ctrl.Result0, None).

(** ** Running a program against a world

    A handler answers every call from a world state [W] and moves the
    world on. A run yields the trace of calls with their answers, in
    order, the outcome, and the final world. *)

Record event : Type := Ev { ev_call : call; ev_resp : resp ev_call }.

Definition handler (W : Type) : Type := ∀ c : call, W → resp c * W.

Fixpoint run {W A} (h : handler W) (p : prog A) (w : W)
    : list event * outcome A * W :=
  match p with
  | Ret a => ([], Returned a, w)
  | Panic => ([], Panicked, w)
  | Call c k =>
      let '(x, w1) := h c w in
      let '(t, o, w2) := run h (k x) w1 in
      (Ev c x :: t, o, w2)
  end.

(** The calls of a trace, without the answers. *)
Definition calls (t : list event) : list call := ev_call <$> t.

(** Classes of calls. *)
Definition isVaultCall (c : call) : bool :=
  match c with
  | VaultDefaultConfig | VaultConfigureTLS _ | VaultNewClient _
  | LogicalWrite _ _ | SetToken _ | LogicalRead _ => true
  | _ => false
  end.

(** The network login exchange. *)
Definition isLogin (c : call) : bool :=
  match c with LogicalWrite _ _ => true | _ => false end.

(** Building the Vault client ([newVaultClient]); none of it touches the
    network. *)
Definition isClientSetup (c : call) : bool :=
  match c with
  | VaultDefaultConfig | VaultConfigureTLS _ | VaultNewClient _ => true
  | _ => false
  end.

(** Anything [VaultReadSecret] does besides logging: building the client,
    resolving and reading the identity token, login and read. *)
Definition isFetchCall (c : call) : bool :=
  match c with
  | OsGetenv _ | IoutilReadFile _ => true
  | _ => isVaultCall c
  end.

(** Writes to the Kubernetes API. The client's only write the controller
    uses is [Create]. *)
Definition isWrite (c : call) : bool :=
  match c with ClientCreate _ => true | _ => false end.

(** An answer as a value of one plain type, to compare the answers of equal
    calls. *)
Inductive answer : Type :=
  | AUnit
  | AString (s : string)
  | AError (err : option error)
  | AVaultSecret (obj : appsv1.VaultSecret) (err : option error)
  | ASecret (obj : core.Secret) (err : option error)
  | ABytes (b : list byte) (err : option error)
  | AVault (secret : option vaultapi.Secret) (err : option error)
  | AVerdict (verdict : sinkVerdict).

Definition answer_of (c : call) : resp c → answer :=
  match c return resp c → answer with
  | ClientGetVaultSecret _ => λ x, AVaultSecret x.1 x.2
  | ClientGetSecret _ => λ x, ASecret x.1 x.2
  | ClientCreate _ => AError
  | VaultDefaultConfig => AError
  | VaultConfigureTLS _ => AError
  | VaultNewClient _ => AError
  | OsGetenv _ => AString
  | IoutilReadFile _ => λ x, ABytes x.1 x.2
  | LogicalWrite _ _ => λ x, AVault x.1 x.2
  | SetToken _ => λ _, AUnit
  | LogicalRead _ => λ x, AVault x.1 x.2
  | LogInfo _ => λ _, AUnit
  | LogError _ _ keysAndValues =>
      match Nat.even (length keysAndValues) as even
            return sinkAnswer even → answer with
      | true => λ _, AUnit
      | false => AVerdict
      end
  end.

(** The error a failed step of the fetch answered with: client
    construction, token file read, login exchange or read exchange. *)
Definition fetchError (e : event) : option error :=
  match e with
  | Ev c x =>
      match c return resp c → option error with
      | VaultDefaultConfig | VaultConfigureTLS _ | VaultNewClient _ => λ err, err
      | IoutilReadFile _ | LogicalWrite _ _ | LogicalRead _ => λ x, x.2
      | _ => λ _, None
      end x
  end.

(** ** A test double for the collaborators

    An in-memory cluster, process environment, file system and Vault
    server, in the manner of a fake client: lookups answer from maps,
    [Create] stores the object, and the Vault answers are canned. It is
    used to exercise the controller on concrete inputs. *)

Record World : Type := mkWorld
  { vaultSecrets : gmap (string * string) appsv1.VaultSecret;
    secrets : gmap (string * string) core.Secret;
    environ : gmap string string;
    files : gmap string (list byte);
    newClientError : option error;
    loginAnswer : option vaultapi.Secret * option error;
    readAnswer : option vaultapi.Secret * option error }.

Definition nskey (key : types.NamespacedName) : string * string :=
  (types.Namespace key, types.Name key).

Definition notFound (what : string) : option error :=
  Some (StatusError apierrors.StatusReasonNotFound 404 (what +:+ " not found")).

Definition storeSecret (obj : core.Secret) (w : World) : World :=
  mkWorld (vaultSecrets w)
          (<[(core.Namespace obj, core.Name obj) := obj]> (secrets w))
          (environ w) (files w) (newClientError w) (loginAnswer w) (readAnswer w).

Definition fake : handler World := λ c w,
  match c return resp c * World with
  | ClientGetVaultSecret key =>
      (match vaultSecrets w !! nskey key with
       | Some obj => (obj, None)
       | None => (appsv1.zero, notFound "vaultsecrets.apps.vault.op")
       end, w)
  | ClientGetSecret key =>
      (match secrets w !! nskey key with
       | Some obj => (obj, None)
       | None => (core.zero, notFound "secrets")
       end, w)
  | ClientCreate obj =>
      match secrets w !! (core.Namespace obj, core.Name obj) with
      | Some _ =>
          (Some (StatusError apierrors.StatusReasonAlreadyExists 409
                   "secrets already exists"), w)
      | None => (None, storeSecret obj w)
      end
  | VaultDefaultConfig => (None, w)
  | VaultConfigureTLS _ => (None, w)
  | VaultNewClient _ => (newClientError w, w)
  | OsGetenv key => (default "" (environ w !! key), w)
  | IoutilReadFile filename =>
      (match files w !! filename with
       | Some b => (b, None)
       | None => ([], Some (errorString ("open " +:+ filename
                                          +:+ ": no such file or directory")))
       end, w)
  | LogicalWrite _ _ => (loginAnswer w, w)
  | SetToken _ => (tt, w)
  | LogicalRead _ => (readAnswer w, w)
  | LogInfo _ => (tt, w)
  | LogError _ _ keysAndValues =>
      (* a production sink: an odd key/value list is logged all the same *)
      (match Nat.even (length keysAndValues) as even
             return sinkAnswer even with
       | true => tt
       | false => SinkLogged
       end, w)
  end.

(** The scenario of the specification: a resource [prod/db], the token
    ["tok-123"] at the default path, a session token and one password. *)
Module Scenario.
Definition gvk : runtime.GroupVersionKind :=
  runtime.mkGVK "apps.vault.op" "v1" "VaultSecret".
Definition r : VaultSecretReconciler := mkReconciler (runtime.mkScheme [gvk]).

Definition es : appsv1.VaultSecret :=
  appsv1.mkVaultSecret
    (metav1.mkTypeMeta "VaultSecret" "apps.vault.op/v1")
    (metav1.mkObjectMeta "db" "prod" "uid-1" ∅ [])
    (appsv1.mkVaultSecretSpec "http://vault:8200" "secret/test" "vault-op"
                              "kubernetes").

Definition req : ctrl.Request :=
  ctrl.mkRequest (types.mkNamespacedName "prod" "db").

Definition payload : vaultapi.Secret :=
  vaultapi.mkSecret None
    {[ "data" := vaultapi.IMap {[ "password" := vaultapi.IString "hunter2" ]} ]}.

Definition session : vaultapi.Secret :=
  vaultapi.mkSecret (Some (vaultapi.mkSecretAuth "sess-456")) ∅.

Definition world : World :=
  mkWorld {[ ("prod", "db") := es ]} ∅ ∅
          {[ defaultJWTFile := String.list_byte_of_string "tok-123" ]}
          None (Some session, None) (Some payload, None).

(** The same, after the child Secret has been created. *)
Definition materialized : core.Secret :=
  core.mkSecret
    (metav1.mkObjectMeta "db" "prod" ""
       {[ "apps.vault.op/v1" := "VaultSecret" ]}
       [metav1.mkOwnerReference "apps.vault.op/v1" "VaultSecret" "db" "uid-1"
          (Some true) (Some true)])
    {[ "password" := String.list_byte_of_string "hunter2" ]}.

(** The world once the child Secret exists. *)
Definition existing : World := storeSecret materialized world.

(** The token file is missing. *)
Definition noToken : World :=
  mkWorld (vaultSecrets world) ∅ ∅ ∅ None (loginAnswer world) (readAnswer world).

(** The login exchange is refused. *)
Definition loginDenied : World :=
  mkWorld (vaultSecrets world) ∅ ∅ (files world) None
          (None, Some (errorString "permission denied")) (readAnswer world).

(** The resource has been deleted. *)
Definition deleted : World :=
  mkWorld ∅ ∅ ∅ (files world) None (loginAnswer world) (readAnswer world).

(** The Vault has nothing at the path: the read answers nil, nil. *)
Definition nothingStored : World :=
  mkWorld (vaultSecrets world) ∅ ∅ (files world) None (loginAnswer world)
          (None, None).

(** The read answers a payload whose data holds a number. *)
Definition malformedStored : World :=
  mkWorld (vaultSecrets world) ∅ ∅ (files world) None (loginAnswer world)
          (Some (vaultapi.mkSecret None
                   {[ "data" := vaultapi.IMap
                                  {[ "port" := vaultapi.INumber "5432" ]} ]}),
           None).

(** The login answers a secret without an auth block. *)
Definition noAuth : World :=
  mkWorld (vaultSecrets world) ∅ ∅ (files world) None
          (Some (vaultapi.mkSecret None ∅), None) (readAnswer world).

(** The Vault client cannot be built. *)
Definition noClient : World :=
  mkWorld (vaultSecrets world) ∅ ∅ (files world)
          (Some (errorString "parse address: missing protocol scheme"))
          (loginAnswer world) (readAnswer world).

(** The token lives where VAULT_JWT_FILE says. *)
Definition secondary : World :=
  mkWorld (vaultSecrets world) ∅ {[ "VAULT_JWT_FILE" := "/tmp/jwt" ]}
          {[ "/tmp/jwt" := String.list_byte_of_string "tok-123" ]}
          None (loginAnswer world) (readAnswer world).

(** A config asking for a method the controller does not support. *)
Definition ldap : VaultConfig :=
  mkVaultConfig "http://vault:8200" "ldap" "ldap" "vault-op" "secret/test"
                false "" 0.

(** The scenario's payload with a lease and a session next to its data. *)
Definition leased : vaultapi.Secret :=
  vaultapi.mkSecret (Some (vaultapi.mkSecretAuth "sess-456"))
    {[ "data" := vaultapi.IMap {[ "password" := vaultapi.IString "hunter2" ]};
       "lease_duration" := vaultapi.INumber "3600";
       "metadata" := vaultapi.INil ]}.

(** A payload whose data holds a number. *)
Definition malformed : vaultapi.Secret :=
  vaultapi.mkSecret None
    {[ "data" := vaultapi.IMap {[ "port" := vaultapi.INumber "5432" ]} ]}.

(** The payload of the data-mapping example. *)
Definition credentials : vaultapi.Secret :=
  vaultapi.mkSecret None
    {[ "data" := vaultapi.IMap {[ "user" := vaultapi.IString "alice";
                                  "pass" := vaultapi.IString "s3cret" ]} ]}.
End Scenario.


(** The test double with a failing API server: lookups of Secrets, or
    creations, answer the given error. *)
Definition secretsUnavailable (err : error) : handler World := λ c w,
  match c as c0 return resp c0 * World with
  | ClientGetSecret _ => ((core.zero, Some err), w)
  | c0 => fake c0 w
  end.

(** The same failing lookups, with a development log sink: an odd
    key/value list makes it panic. *)
Definition secretsUnavailableDev (err : error) : handler World := λ c w,
  match c as c0 return resp c0 * World with
  | ClientGetSecret _ => ((core.zero, Some err), w)
  | LogError _ _ keysAndValues =>
      (match Nat.even (length keysAndValues) as even
             return sinkAnswer even with
       | true => tt
       | false => SinkPanicked
       end, w)
  | c0 => fake c0 w
  end.

Definition createRefused (err : error) : handler World := λ c w,
  match c as c0 return resp c0 * World with
  | ClientCreate _ => (Some err, w)
  | c0 => fake c0 w
  end.

(** ** Auxiliary notions for the statements *)

(** What [SecretMake] returns, given the data map its loops computed. *)
Definition madeSecret (r : VaultSecretReconciler) (es : appsv1.VaultSecret)
    (secObjData : gmap string (list byte)) : core.Secret :=
  (ctrl.SetControllerReference es
     (core.mkSecret
        (metav1.mkObjectMeta (appsv1.Name es) (appsv1.Namespace es) ""
           {[ appsv1.APIVersion es := appsv1.Kind es ]} [])
        secObjData)
     (Scheme r)).1.

(** What [VaultReadSecret] may call: the fetch steps and its own three
    log lines. *)
Definition fetchStep (cfg : VaultConfig) (c : call) : Prop :=
  isFetchCall c = true
  ∨ c = LogInfo ("fetching Vault secret '" +:+ Path cfg +:+ "' from the "
                   +:+ Addr cfg)
  ∨ (∃ err, c = LogError err "failed to authenticate" [])
  ∨ (∃ err, c = LogError err ("can't read secret '" +:+ Path cfg
                                +:+ "' from the Vault") []).

(** The error a call of the Kubernetes API client answered with. *)
Definition apiError (e : event) : option error :=
  match e with
  | Ev c x =>
      match c return resp c → option error with
      | ClientGetVaultSecret _ | ClientGetSecret _ => λ x, x.2
      | ClientCreate _ => λ err, err
      | _ => λ _, None
      end x
  end.

(** The error any collaborator answered with. *)
Definition answeredError (e : event) : option error :=
  match apiError e with
  | Some err => Some err
  | None => fetchError e
  end.

(** The child Secret lookup answered not-found. *)
Definition isChildNotFound (e : event) : bool :=
  match e with
  | Ev c x =>
      match c return resp c → bool with
      | ClientGetSecret _ => λ x, apierrors.IsNotFound x.2
      | _ => λ _, false
      end x
  end.

Definition isLogError (c : call) : bool :=
  match c with LogError _ _ _ => true | _ => false end.

Definition isRead (c : call) : bool :=
  match c with LogicalRead _ => true | _ => false end.

Definition isSetToken (c : call) : bool :=
  match c with SetToken _ => true | _ => false end.

(** How far into [VaultReadSecret] a call belongs: logging (0), building
    the client (1), resolving and reading the token (2), the login
    exchange (3), the authenticated read (4). *)
Definition fetchStage (c : call) : nat :=
  match c with
  | VaultDefaultConfig | VaultConfigureTLS _ | VaultNewClient _ => 1
  | OsGetenv _ | IoutilReadFile _ => 2
  | LogicalWrite _ _ => 3
  | SetToken _ | LogicalRead _ => 4
  | _ => 0
  end.

(** The arguments [VaultReadSecret] passes on from its config. *)
Definition configuredCall (cfg : VaultConfig) (c : call) : Prop :=
  match c with
  | VaultConfigureTLS Insecure => Insecure = SkipVerify cfg
  | VaultNewClient Address => Address = Addr cfg
  | LogicalWrite path _ => path = "auth/" +:+ AuthPath cfg +:+ "/login"
  | LogicalRead path => path = Path cfg
  | _ => True
  end.

(** * Properties *)

(** ** The data mapping of [SecretMake] *)

Section data_mapping.
Implicit Types (m data : gmap string vaultapi.iface).
Implicit Types (sm : gmap string string) (acc d : gmap string (list byte)).

(** The inner loop, on a map of strings; and it returns on nothing else. *)
Lemma copyData_spec m acc :
  (∀ sm, m = vaultapi.IString <$> sm →
     copyData m acc = Returned ((String.list_byte_of_string <$> sm) ∪ acc))
  ∧ (∀ d, copyData m acc = Returned d → ∃ sm, m = vaultapi.IString <$> sm).
Proof.
  unfold copyData.
  apply (map_fold_weak_ind (λ res m,
    (∀ sm, m = vaultapi.IString <$> sm →
       res = Returned ((String.list_byte_of_string <$> sm) ∪ acc))
    ∧ (∀ d, res = Returned d → ∃ sm, m = vaultapi.IString <$> sm))).
  - split.
    + intros sm Hsm. symmetry in Hsm. apply fmap_empty_inv in Hsm as ->.
      by rewrite fmap_empty, (left_id_L ∅ (∪)).
    + intros d _. exists ∅. by rewrite fmap_empty.
  - intros kk vv m' res Hfresh [IHstr IHret]. split.
    + intros sm Hsm.
      assert (Hkk : (vaultapi.IString <$> sm) !! kk = Some vv)
        by (rewrite <- Hsm; apply lookup_insert_eq).
      rewrite lookup_fmap in Hkk.
      destruct (sm !! kk) as [s|] eqn:Hs; simplify_eq/=.
      rewrite (IHstr (delete kk sm)).
      * cbn. unfold mret, outcome_ret. f_equal.
        rewrite insert_union_l, <- fmap_insert.
        by rewrite insert_delete_id.
      * rewrite fmap_delete, <- Hsm, delete_insert_eq.
        by rewrite delete_id.
    + intros d Hd. destruct res as [d'|]; [|done].
      destruct vv; try done.
      destruct (IHret d' eq_refl) as [sm ->].
      exists (<[kk := s]> sm). by rewrite fmap_insert.
Qed.

Lemma copyData_strings sm acc :
  copyData (vaultapi.IString <$> sm) acc
  = Returned ((String.list_byte_of_string <$> sm) ∪ acc).
Proof. by apply copyData_spec. Qed.

(** The outer loop only ever acts on the ["data"] entry. *)
Lemma rangeData_spec data acc :
  rangeData data acc =
    match data !! "data" with
    | Some v => m ← assertMap v; copyData m acc
    | None => Returned acc
    end.
Proof.
  unfold rangeData.
  apply (map_fold_weak_ind (λ res data,
    res = match data !! "data" with
          | Some v => m ← assertMap v; copyData m acc
          | None => Returned acc
          end)).
  - by rewrite lookup_empty.
  - intros k v data' res Hfresh ->. case_bool_decide as Hk.
    + subst k. by rewrite lookup_insert_eq, Hfresh.
    + rewrite lookup_insert_ne by done.
      by destruct (match data' !! "data" with Some _ => _ | None => _ end).
Qed.
End data_mapping.

(** ** [SetControllerReference] leaves everything but the owners alone *)

Lemma SetControllerReference_frame owner controlled scheme :
  let s := (ctrl.SetControllerReference owner controlled scheme).1 in
  core.Name s = core.Name controlled
  ∧ core.Namespace s = core.Namespace controlled
  ∧ core.Annotations s = core.Annotations controlled
  ∧ core.Data s = core.Data controlled.
Proof.
  unfold ctrl.SetControllerReference.
  repeat case_match; by destruct controlled as [[]].
Qed.

Lemma SecretMake_nil r es :
  SecretMake r es None = Returned (madeSecret r es ∅, None).
Proof. reflexivity. Qed.

Lemma SecretMake_Returned r es secret s err :
  SecretMake r es secret = Returned (s, err) →
  err = None ∧ ∃ secObjData, s = madeSecret r es secObjData ∧
    match secret with
    | Some secret => rangeData (vaultapi.Data secret) ∅ = Returned secObjData
    | None => secObjData = ∅
    end.
Proof.
  unfold SecretMake. destruct secret as [secret|]; cbn.
  - destruct (rangeData _ _) as [d|]; [|done]. cbn.
    intros [= <- <-]. eauto.
  - intros [= <- <-]. eauto.
Qed.

Lemma madeSecret_Data r es d : core.Data (madeSecret r es d) = d.
Proof.
  unfold madeSecret.
  by destruct (SetControllerReference_frame es
    (core.mkSecret (metav1.mkObjectMeta (appsv1.Name es) (appsv1.Namespace es) ""
       {[ appsv1.APIVersion es := appsv1.Kind es ]} []) d) (Scheme r))
    as (_ & _ & _ & ->).
Qed.

(** ** Runs *)

Section runs.
Context {W : Type} (h : handler W).

Lemma run_bind {A B} (p : prog A) (f : A → prog B) (w : W) :
  run h (p ≫= f) w =
    let '(t1, o1, w1) := run h p w in
    match o1 with
    | Returned a => let '(t2, o2, w2) := run h (f a) w1 in (t1 ++ t2, o2, w2)
    | Panicked => (t1, Panicked, w1)
    end.
Proof.
  revert w. induction p as [a| |c k IH]; intros w; cbn.
  - by destruct (run h (f a) w) as [[??]?].
  - done.
  - destruct (h c w) as [x w1]. change (prog_bind f (k x)) with (k x ≫= f).
    rewrite (IH x w1).
    destruct (run h (k x) w1) as [[t1 [a|]] w2]; [|done].
    by destruct (run h (f a) w2) as [[??]?].
Qed.

Lemma run_lift {A} (o : outcome A) (w : W) : run h (lift o) w = ([], o, w).
Proof. by destruct o. Qed.
End runs.

Lemma Ev_inj (c : call) (x y : resp c) : Ev c x = Ev c y → x = y.
Proof.
  intros Heq.
  assert (Ha : answer_of c x = answer_of c y)
    by exact (f_equal (λ e, answer_of (ev_call e) (ev_resp e)) Heq).
  clear Heq. destruct c; cbn in *;
    first [ congruence | by destruct x, y
          | destruct x, y; cbn in *; congruence | idtac ].
  unfold logAnswer in *.
  destruct (Nat.even (length keysAndValues)); cbn in *;
    [by destruct x, y | congruence].
Qed.

#[local] Arguments SecretMake : simpl never.
#[local] Arguments VaultReadSecret : simpl never.
#[local] Arguments String.append : simpl never.

(** Symbolic execution of a run: every answer of the handler is a case.
    Calls of [VaultReadSecret] and [SecretMake] are kept whole. *)
Ltac exec_step :=
  match goal with
  | |- context [run ?h (VaultReadSecret ?r ?c ≫= ?f) ?w] =>
      rewrite (run_bind h (VaultReadSecret r c) f w);
      destruct (run h (VaultReadSecret r c) w) as [[? [[??]|]] ?] eqn:?
  | |- context [match ?x with _ => _ end] =>
      lazymatch x with
      | context [@run] => fail
      | context [match _ with _ => _ end] => fail
      | _ => destruct x eqn:?
      end
  end.

Ltac exec :=
  unfold perform, lift; cbn; repeat (exec_step; cbn);
  let Hrun := fresh "Hrun" in intros Hrun; simplify_eq.

(** [H : Ev c x = Ev c' x']: the calls agree, and so do the answers. *)
Ltac ev_eq H :=
  first
    [ discriminate H
    | let Hc := fresh "Hc" in
      pose proof (f_equal ev_call H) as Hc; cbn in Hc;
      first [ discriminate Hc
            | injection Hc as ?; subst; apply Ev_inj in H; simplify_eq ] ].

(** [H : e ∈ t] for a trace [t] built from explicit events and sub-traces. *)
Ltac ev_in H :=
  repeat first
    [ apply elem_of_nil in H; destruct H
    | apply elem_of_cons in H as [H|H]; [try ev_eq H|]
    | apply elem_of_app in H as [H|H] ].

(** ** [VaultReadSecret] *)

Ltac exec_fetch :=
  unfold VaultReadSecret, newVaultClient, jwtFilePath, authClientToken; exec.

Section fetch.
Context {W : Type} (h : handler W).
Implicit Types (w : W) (t : list event) (cfg : VaultConfig).

Lemma VaultReadSecret_calls r cfg w t o w' :
  run h (VaultReadSecret r cfg) w = (t, o, w') →
  Forall (fetchStep cfg) (calls t).
Proof.
  exec_fetch; unfold calls, fetchStep; cbn;
    repeat (apply Forall_cons_2;
            [ first [ by left | by right; left
                    | by right; right; left; eexists
                    | by right; right; right; eexists ] |]);
    apply Forall_nil_2.
Qed.

Lemma VaultReadSecret_call_in r cfg w t o w' e :
  run h (VaultReadSecret r cfg) w = (t, o, w') →
  e ∈ t → fetchStep cfg (ev_call e).
Proof.
  intros Hrun Hin. apply VaultReadSecret_calls in Hrun.
  rewrite Forall_forall in Hrun. by apply Hrun, list_elem_of_fmap_2.
Qed.

(** An error comes with a nil payload. *)
Lemma VaultReadSecret_error_nil r cfg w t p e w' :
  run h (VaultReadSecret r cfg) w = (t, Returned (p, Some e), w') → p = None.
Proof. by exec_fetch. Qed.

(** A failed step ends the fetch, and its error is the one returned. *)
Lemma VaultReadSecret_step_failed r cfg w t o w' ev e :
  run h (VaultReadSecret r cfg) w = (t, o, w') →
  ev ∈ t → fetchError ev = Some e →
  o = Returned (None, Some e).
Proof.
  exec_fetch; intros Hin Hev; ev_in Hin; subst ev; cbn in Hev; by simplify_eq.
Qed.

(** With the jwt method, an error returned is the error of a failed step. *)
Lemma VaultReadSecret_error_step r cfg w t p e w' :
  AuthMethod cfg = defaultJWTAuthMethod →
  run h (VaultReadSecret r cfg) w = (t, Returned (p, Some e), w') →
  ∃ ev, ev ∈ t ∧ fetchError ev = Some e.
Proof.
  intros Hjwt. exec_fetch.
  all: try (by rewrite Hjwt in *).
  all: apply Exists_exists;
    repeat first [ by apply Exists_cons_hd | apply Exists_cons_tl ].
Qed.
End fetch.

(** ** [Reconcile] *)

(** [H : e ∈ l] where [l] is the trace of a [VaultReadSecret] run. *)
Ltac fetch_in H :=
  match goal with
  | Hrun : run _ (VaultReadSecret _ _) _ = (?l, _, _), H' : _ ∈ ?l |- _ =>
      constr_eq H H';
      apply (VaultReadSecret_call_in _ _ _ _ _ _ _ _ Hrun) in H;
      destruct H as [H|[H|[[? H]|[? H]]]]; cbn in H; try discriminate H
  end.

(** C1. When the child Secret lookup succeeds, [Reconcile] returns
    successfully without requeue after exactly three calls: its first log
    line and the two lookups. [VaultReadSecret] is not entered, so there
    is no remote fetch and no authentication, and nothing is created. *)
Theorem Reconcile_existing_secret_noop {W} (h : handler W) w r req t o w'
    key found :
  run h (Reconcile r req) w = (t, o, w') →
  Ev (ClientGetSecret key) (found, None) ∈ t →
  o = Returned (ctrl.Result0, None)
  ∧ Forall (λ c, isFetchCall c = false ∧ isWrite c = false) (calls t)
  ∧ ∃ vaultSecret,
      calls t =
        [ LogInfo ("starting vaultSecretReconciler for: '" +:+ ctrl.Name req
                     +:+ "'");
          ClientGetVaultSecret (ctrl.NamespacedName req);
          ClientGetSecret (types.mkNamespacedName (appsv1.Namespace vaultSecret)
                                                   (appsv1.Name vaultSecret)) ].
Proof.
  unfold Reconcile. exec; intros Hin; ev_in Hin; try fetch_in Hin;
    cbn in *; try discriminate.
  split; [done|]. split; [by repeat constructor | by eexists].
Qed.

Lemma Reconcile_existing_secret_noop_witness :
  (run fake (Reconcile Scenario.r Scenario.req) Scenario.existing).1.2
  = Returned (ctrl.Result0, None).
Proof.
  pose (x := run fake (Reconcile Scenario.r Scenario.req) Scenario.existing).
  refine (proj1 (Reconcile_existing_secret_noop fake Scenario.existing
                   Scenario.r Scenario.req x.1.1 x.1.2 x.2
                   (types.mkNamespacedName "prod" "db") Scenario.materialized
                   _ _)).
  - vm_compute. reflexivity.
  - vm_compute. do 2 apply list_elem_of_further. apply list_elem_of_here.
Defined.


(** What [SecretMake] returned, in terms of [madeSecret]. *)
Ltac made :=
  repeat match goal with
  | H : SecretMake _ _ _ = Returned (_, _) |- _ =>
      apply SecretMake_Returned in H as (-> & ? & -> & H); try subst
  end.

(** Find an event, or a call, in the explicit part of a trace. *)
Ltac ev_find :=
  first [ apply list_elem_of_here
        | apply list_elem_of_further; ev_find
        | apply elem_of_app; right; ev_find ].


(** An error that tested [nil] is [None]. *)
Ltac nil_errs :=
  repeat match goal with
  | H : notNil ?x = false |- _ => is_var x; destruct x; [discriminate H|clear H]
  end.

(** [Hin : e ∈ t] is absurd, or forces the answer the goal needs. *)
Ltac no_such_event Hin :=
  ev_in Hin; try fetch_in Hin; cbn in *; by try discriminate.

(** C5. [Reconcile] returns [Requeue = true] exactly when the [Create]
    call for the child Secret succeeded; when [Create] failed, it returns
    that error and the zero [Result]. *)
Theorem Reconcile_requeue_iff_created {W} (h : handler W) w r req t o w' :
  run h (Reconcile r req) w = (t, o, w') →
  (∀ res err, o = Returned (res, err) →
     (ctrl.Requeue res = true ↔ ∃ secret, Ev (ClientCreate secret) None ∈ t))
  ∧ (∀ secret, Ev (ClientCreate secret) None ∈ t →
       o = Returned (ctrl.mkResult true, None))
  ∧ (∀ secret e, Ev (ClientCreate secret) (Some e) ∈ t →
       o = Returned (ctrl.Result0, Some e)).
Proof.
  unfold Reconcile. exec.
  all: split;
    [ intros res err Ho;
      first
        [ discriminate Ho
        | simplify_eq; cbn; split;
          [ intros Hq; first [ discriminate Hq | nil_errs; eexists; ev_find ]
          | intros [secret Hin]; no_such_event Hin ] ]
    | split;
      [ intros secret Hin; no_such_event Hin
      | intros secret e Hin; no_such_event Hin ] ].
Qed.

(** The log line of the [SecretMake] failure branch differs from every
    other log line by its first character. *)
Ltac msg_neq H :=
  injection H as _ H _;
  apply (f_equal (String.get 0)) in H; vm_compute in H; discriminate H.

(** C10. Whenever [SecretMake] returns, its error is [nil]; on a [nil]
    payload it does return. Hence no run of [Reconcile] takes the branch
    that handles a [SecretMake] failure: its log line never appears. *)
Theorem SecretMake_never_fails :
  (∀ r es secret s err, SecretMake r es secret = Returned (s, err) → err = None)
  ∧ (∀ r es, ∃ s, SecretMake r es None = Returned (s, None))
  ∧ (∀ W (h : handler W) w r req t o w',
       run h (Reconcile r req) w = (t, o, w') →
       ∀ err name keysAndValues,
         LogError err ("Failed to generate a Secret resource for the " +:+ name)
                  keysAndValues ∉ calls t).
Proof.
  split; [|split].
  - intros r es secret s err Hmake.
    by destruct (SecretMake_Returned _ _ _ _ _ Hmake).
  - intros r es. eexists. apply SecretMake_nil.
  - intros W h w r req t o w'. unfold Reconcile. exec.
    all: intros err name kvs Hin.
    all: apply list_elem_of_fmap in Hin as (ev & Hc & Hin).
    all: made; cbn in *; try discriminate.
    all: ev_in Hin; try (subst ev; cbn in Hc; first [discriminate Hc | msg_neq Hc]).
    all: fetch_in Hin; rewrite <- ?Hc in *; try discriminate; try msg_neq Hin.
Qed.

(** ** [SecretMake] *)

(** C4. When the ["data"] entry of a non-nil payload maps string keys to
    string values, [SecretMake] returns a Secret whose data map has exactly
    those keys, each with the bytes of its string; the other entries of the
    payload contribute nothing. *)
Theorem SecretMake_data_exact r es secret (sm : gmap string string) :
  vaultapi.Data secret !! "data"
    = Some (vaultapi.IMap (vaultapi.IString <$> sm)) →
  ∃ s, SecretMake r es (Some secret) = Returned (s, None)
       ∧ core.Data s = String.list_byte_of_string <$> sm.
Proof.
  intros Hdata. unfold SecretMake.
  rewrite rangeData_spec, Hdata. cbn. rewrite copyData_strings. cbn.
  eexists; split; [reflexivity|].
  fold (madeSecret r es ((String.list_byte_of_string <$> sm) ∪ ∅)).
  by rewrite madeSecret_Data, (right_id_L ∅ (∪)).
Qed.

Lemma SecretMake_data_exact_witness :
  ∃ s, SecretMake Scenario.r Scenario.es (Some Scenario.credentials)
         = Returned (s, None)
       ∧ core.Data s = {[ "user" := String.list_byte_of_string "alice";
                          "pass" := String.list_byte_of_string "s3cret" ]}.
Proof.
  destruct (SecretMake_data_exact Scenario.r Scenario.es Scenario.credentials
              {[ "user" := "alice"; "pass" := "s3cret" ]})
    as (s & Hmake & Hdata).
  - vm_compute. reflexivity.
  - exists s. split; [exact Hmake|]. rewrite Hdata. vm_compute. reflexivity.
Defined.

(** X20. A Secret made by [SecretMake] reuses the name and the namespace of
    the resource and carries exactly one annotation, from the resource's
    API version to its kind. When the reconciler's scheme resolves the
    resource's type, the Secret carries one owner reference, a controller
    reference to the resource (its name and UID). *)
Theorem SecretMake_owner_and_annotation r es secret s err :
  SecretMake r es secret = Returned (s, err) →
  (core.Name s = appsv1.Name es
   ∧ core.Namespace s = appsv1.Namespace es
   ∧ core.Annotations s = {[ appsv1.APIVersion es := appsv1.Kind es ]}
   ∧ size (core.Annotations s) = 1)
  ∧ (∀ gvk, runtime.VaultSecretKinds (Scheme r) = [gvk] →
       core.OwnerReferences s =
         [ metav1.mkOwnerReference (runtime.GroupVersionString gvk)
             (runtime.Kind gvk) (appsv1.Name es) (appsv1.UID es)
             (Some true) (Some true) ]).
Proof.
  intros Hmake. apply SecretMake_Returned in Hmake as (-> & d & -> & _).
  split.
  - unfold madeSecret.
    destruct (SetControllerReference_frame es
      (core.mkSecret (metav1.mkObjectMeta (appsv1.Name es) (appsv1.Namespace es)
         "" {[ appsv1.APIVersion es := appsv1.Kind es ]} []) d) (Scheme r))
      as (-> & -> & -> & _).
    repeat split; try done. apply map_size_singleton.
  - intros gvk Hgvk.
    unfold madeSecret, ctrl.SetControllerReference, ctrl.GVKForObject,
      ctrl.validateOwner.
    rewrite Hgvk. cbn.
    repeat case_bool_decide; try done; congruence.
Qed.

Lemma SecretMake_owner_and_annotation_witness :
  core.OwnerReferences Scenario.materialized =
    [ metav1.mkOwnerReference "apps.vault.op/v1" "VaultSecret" "db" "uid-1"
        (Some true) (Some true) ].
Proof.
  refine (proj2 (SecretMake_owner_and_annotation Scenario.r Scenario.es
                   (Some Scenario.payload) Scenario.materialized None _)
                Scenario.gvk _).
  - vm_compute. reflexivity.
  - reflexivity.
Defined.

(** C7, evaluated. With a scheme that has no kind registered for the
    resource's type, [SetControllerReference] answers an error and leaves
    the Secret as it was. [SecretMake] drops that error: it returns a nil
    error and a Secret with the name, namespace and annotation of the
    resource, but without any owner reference. *)
Theorem SecretMake_owner_reference_dropped :
  let r := mkReconciler (runtime.mkScheme []) in
  (∃ err, (ctrl.SetControllerReference Scenario.es
             (core.mkSecret
                (metav1.mkObjectMeta "db" "prod" ""
                   {[ "apps.vault.op/v1" := "VaultSecret" ]} [])
                {[ "password" := String.list_byte_of_string "hunter2" ]})
             (Scheme r)).2 = Some err)
  ∧ ∃ s, SecretMake r Scenario.es (Some Scenario.payload) = Returned (s, None)
         ∧ core.OwnerReferences s = []
         ∧ core.Name s = "db" ∧ core.Namespace s = "prod"
         ∧ core.Annotations s = {[ "apps.vault.op/v1" := "VaultSecret" ]}
         ∧ core.Data s = {[ "password" := String.list_byte_of_string "hunter2" ]}.
Proof.
  split.
  - eexists. vm_compute. reflexivity.
  - eexists. split; [vm_compute; reflexivity|]. vm_compute. by repeat split.
Qed.

(** C9. [SecretMake] is not total: on a payload whose ["data"] entry holds
    a number where a string is expected, a type assertion panics. And
    whenever [SecretMake] returns on a payload with a ["data"] entry, that
    entry is a string-keyed map of strings; on any other entry it panics. *)
Theorem SecretMake_partial :
  (∃ r es secret v,
     vaultapi.Data secret !! "data" = Some v
     ∧ (∀ sm, v ≠ vaultapi.IMap (vaultapi.IString <$> sm))
     ∧ SecretMake r es (Some secret) = Panicked)
  ∧ (∀ r es secret v s err,
       vaultapi.Data secret !! "data" = Some v →
       SecretMake r es (Some secret) = Returned (s, err) →
       ∃ sm, v = vaultapi.IMap (vaultapi.IString <$> sm))
  ∧ (∀ r es secret v,
       vaultapi.Data secret !! "data" = Some v →
       (∀ sm, v ≠ vaultapi.IMap (vaultapi.IString <$> sm)) →
       SecretMake r es (Some secret) = Panicked).
Proof.
  assert (Hret : ∀ r es secret v s err,
    vaultapi.Data secret !! "data" = Some v →
    SecretMake r es (Some secret) = Returned (s, err) →
    ∃ sm, v = vaultapi.IMap (vaultapi.IString <$> sm)).
  { intros r es secret v s err Hdata Hmake.
    apply SecretMake_Returned in Hmake as (_ & d & _ & Hrange).
    rewrite rangeData_spec, Hdata in Hrange.
    destruct v; try done. cbn in Hrange.
    apply copyData_spec in Hrange as [sm ->]. by exists sm. }
  assert (Hpanic : ∀ r es secret v,
    vaultapi.Data secret !! "data" = Some v →
    (∀ sm, v ≠ vaultapi.IMap (vaultapi.IString <$> sm)) →
    SecretMake r es (Some secret) = Panicked).
  { intros r es secret v Hdata Hshape.
    destruct (SecretMake r es (Some secret)) as [[s err]|] eqn:Hmake; [|done].
    destruct (Hret _ _ _ _ _ _ Hdata Hmake) as [sm ->]. by destruct (Hshape sm). }
  split; [|by split].
  exists Scenario.r, Scenario.es, Scenario.malformed,
    (vaultapi.IMap {[ "port" := vaultapi.INumber "5432" ]}).
  assert (Hshape : ∀ sm, vaultapi.IMap {[ "port" := vaultapi.INumber "5432" ]}
                         ≠ vaultapi.IMap (vaultapi.IString <$> sm)).
  { intros sm [= Heq]. apply (f_equal (.!! "port")) in Heq.
    rewrite lookup_fmap, lookup_singleton_eq in Heq.
    by destruct (sm !! "port"). }
  assert (Hdata : vaultapi.Data Scenario.malformed !! "data"
                  = Some (vaultapi.IMap {[ "port" := vaultapi.INumber "5432" ]}))
    by (vm_compute; reflexivity).
  split; [done|]. split; [done|]. by apply (Hpanic _ _ _ _ Hdata).
Qed.

Lemma SecretMake_partial_witness :
  ∃ sm, vaultapi.IMap {[ "user" := vaultapi.IString "alice";
                         "pass" := vaultapi.IString "s3cret" ]}
        = vaultapi.IMap (vaultapi.IString <$> sm).
Proof.
  refine (proj1 (proj2 SecretMake_partial) Scenario.r Scenario.es
            Scenario.credentials _
            (madeSecret Scenario.r Scenario.es
               {[ "user" := String.list_byte_of_string "alice";
                  "pass" := String.list_byte_of_string "s3cret" ]})
            None _ _).
  - vm_compute. reflexivity.
  - vm_compute. reflexivity.
Defined.

(** ** The method gate and the token file *)

(** C6, as the code has it. With a method other than jwt,
    [VaultReadSecret] only logs its first line and builds the client: no
    environment lookup, no file read, no login and no read. It returns a
    nil payload and an error: the unsupported-method error when every
    client construction step succeeded, and otherwise the error of the
    step that failed. [Reconcile] itself always configures jwt, so no
    resource selects another method. *)
Theorem VaultReadSecret_unsupported_method :
  (∀ W (h : handler W) w r cfg t o w',
     AuthMethod cfg ≠ defaultJWTAuthMethod →
     run h (VaultReadSecret r cfg) w = (t, o, w') →
     Forall (λ c, isLogin c = false
                  ∧ (isClientSetup c = true
                     ∨ c = LogInfo ("fetching Vault secret '" +:+ Path cfg
                                      +:+ "' from the " +:+ Addr cfg)))
            (calls t)
     ∧ ∃ e, o = Returned (None, Some e)
            ∧ ((∀ ev, ev ∈ t → fetchError ev = None) →
               e = errors.New ("unsupported Auth method: " +:+ AuthMethod cfg))
            ∧ (∀ ev e', ev ∈ t → fetchError ev = Some e' → e = e'))
  ∧ (∀ vaultSecret, AuthMethod (initConfig vaultSecret) = defaultJWTAuthMethod).
Proof.
  split; [|done].
  intros W h w r cfg t o w' Hmethod. exec_fetch.
  all: try match goal with
           | H : bool_decide (AuthMethod _ ≠ _) = false |- _ =>
               exfalso; apply bool_decide_eq_false in H; exact (H Hmethod)
           end.
  all: split;
    [ unfold calls; cbn;
      repeat (apply Forall_cons_2; [split; [done|]; first [by left|by right]|]);
      apply Forall_nil_2 |].
  all: eexists; split; [reflexivity|]; split.
  all: try (intros ev e' Hin Hev; ev_in Hin; subst ev; cbn in Hev; by simplify_eq).
  all: intros Hok; try done.
  all: match goal with
       | _ : _ ?c _ = (Some ?e, _) |- _ =>
           by specialize (Hok (Ev c (Some e))
                            ltac:(repeat first [ apply list_elem_of_here
                                               | apply list_elem_of_further ]))
       end.
Qed.

Lemma VaultReadSecret_unsupported_method_witness :
  (run fake (VaultReadSecret Scenario.r Scenario.ldap) Scenario.world).1.2
  = Returned (None, Some (errors.New "unsupported Auth method: ldap")).
Proof.
  pose (x := run fake (VaultReadSecret Scenario.r Scenario.ldap) Scenario.world).
  change (x.1.2 = Returned (None, Some (errors.New "unsupported Auth method: ldap"))).
  destruct (proj1 VaultReadSecret_unsupported_method World fake Scenario.world
              Scenario.r Scenario.ldap x.1.1 x.1.2 x.2)
    as (_ & e & Ho & He & _).
  - vm_compute. discriminate.
  - vm_compute. reflexivity.
  - rewrite Ho, He; [reflexivity|].
    intros ev Hin. vm_compute in Hin. ev_in Hin; subst ev; reflexivity.
Defined.

(** The claim C6 as stated fails: when the client cannot be built,
    [VaultReadSecret] returns the construction error, whatever the method. *)
Lemma VaultReadSecret_unsupported_counterexample :
  ¬ (∀ W (h : handler W) w r cfg,
       AuthMethod cfg ≠ defaultJWTAuthMethod →
       ∃ t w', run h (VaultReadSecret r cfg) w
               = (t, Returned (None, Some (errors.New ("unsupported Auth method: "
                                                         +:+ AuthMethod cfg))), w')).
Proof.
  intros Hclaim.
  destruct (Hclaim World fake Scenario.noClient Scenario.r Scenario.ldap)
    as (t & w' & Hrun).
  - vm_compute. discriminate.
  - vm_compute in Hrun. discriminate Hrun.
Qed.

(** Decide the tests on the environment answers, and name the second
    answer where the first was empty. *)
Ltac env_rewrite :=
  repeat match goal with
         | H : bool_decide _ = _ |- _ => rewrite H; clear H
         end.
Ltac env_cases :=
  env_rewrite; first [ done | eexists; split; [ev_find|]; env_rewrite; done ].

(** C8. The token file [VaultReadSecret] reads is the one named by
    KUBERNETES_SERVICE_ACCOUNT_TOKEN when that is not empty, else the one
    named by VAULT_JWT_FILE when that is not empty, else the default path.
    When the read fails, its error is returned with a nil payload. With the
    jwt method and a client that could be built, the file is read. *)
Theorem VaultReadSecret_token_file {W} (h : handler W) w r cfg t o w' :
  run h (VaultReadSecret r cfg) w = (t, o, w') →
  (AuthMethod cfg = defaultJWTAuthMethod →
   (∀ ev, ev ∈ t → isClientSetup (ev_call ev) = true → fetchError ev = None) →
   ∃ path jwt err, Ev (IoutilReadFile path) (jwt, err) ∈ t)
  ∧ (∀ path jwt err,
       Ev (IoutilReadFile path) (jwt, err) ∈ t →
       (∃ primary,
          Ev (OsGetenv "KUBERNETES_SERVICE_ACCOUNT_TOKEN") primary ∈ t
          ∧ if bool_decide (primary ≠ "") then path = primary
            else ∃ secondary,
                   Ev (OsGetenv "VAULT_JWT_FILE") secondary ∈ t
                   ∧ path = if bool_decide (secondary ≠ "") then secondary
                            else defaultJWTFile)
       ∧ (∀ e, err = Some e → o = Returned (None, Some e))).
Proof.
  exec_fetch.
  all: split;
    [ intros Hjwt Hok;
      first
        [ eexists _, _, _; ev_find
        | by rewrite Hjwt in *
        | match goal with
          | _ : _ ?c _ = (Some ?e, _) |- _ =>
              by specialize (Hok (Ev c (Some e))
                               ltac:(repeat first [ apply list_elem_of_here
                                                  | apply list_elem_of_further ])
                               eq_refl)
          end ]
    | intros path jwt err Hin; ev_in Hin;
      (split; [ eexists; split; [ev_find|]; env_cases | by intros e' [= ->] ]) ].
Qed.

Lemma VaultReadSecret_token_file_witness :
  let t := (run fake (VaultReadSecret Scenario.r (initConfig Scenario.es))
                Scenario.secondary).1.1 in
  ∃ primary,
    Ev (OsGetenv "KUBERNETES_SERVICE_ACCOUNT_TOKEN") primary ∈ t
    ∧ if bool_decide (primary ≠ "") then "/tmp/jwt" = primary
      else ∃ secondary,
             Ev (OsGetenv "VAULT_JWT_FILE") secondary ∈ t
             ∧ "/tmp/jwt" = if bool_decide (secondary ≠ "") then secondary
                            else defaultJWTFile.
Proof.
  pose (x := run fake (VaultReadSecret Scenario.r (initConfig Scenario.es))
                 Scenario.secondary).
  refine (proj1 (proj2 (VaultReadSecret_token_file fake Scenario.secondary
                          Scenario.r (initConfig Scenario.es) x.1.1 x.1.2 x.2 _)
                   "/tmp/jwt" (String.list_byte_of_string "tok-123") None _)).
  - vm_compute. reflexivity.
  - vm_compute. ev_find.
Defined.

(** ** The controller on concrete worlds *)

(** C2, evaluated. The token file is missing, or the login is refused:
    [Reconcile] logs the error, creates the child Secret with no data and
    returns [Requeue = true] with a nil error. *)
Theorem Reconcile_auth_failure_not_surfaced :
  (let '(t, o, w') :=
     run fake (Reconcile Scenario.r Scenario.req) Scenario.noToken in
   o = Returned (ctrl.mkResult true, None)
   ∧ LogError (Some (errorString ("open " +:+ defaultJWTFile
                                    +:+ ": no such file or directory")))
              "can't read the data from the Vault" [] ∈ calls t
   ∧ secrets w' !! ("prod", "db") = Some (madeSecret Scenario.r Scenario.es ∅))
  ∧ (let '(t, o, w') :=
       run fake (Reconcile Scenario.r Scenario.req) Scenario.loginDenied in
     o = Returned (ctrl.mkResult true, None)
     ∧ LogError (Some (errorString "permission denied"))
                "can't read the data from the Vault" [] ∈ calls t
     ∧ secrets w' !! ("prod", "db") = Some (madeSecret Scenario.r Scenario.es ∅)).
Proof.
  split; vm_compute; (split; [reflexivity|split; [ev_find|reflexivity]]).
Qed.

(** The scenario of the specification, end to end. *)
Example Reconcile_scenario :
  let '(t, o, w') := run fake (Reconcile Scenario.r Scenario.req) Scenario.world in
  o = Returned (ctrl.mkResult true, None)
  ∧ w' = Scenario.existing
  ∧ filter isLogin (calls t)
    = [ LogicalWrite "auth/kubernetes/login"
          {[ "jwt" := vaultapi.IString "tok-123";
             "role" := vaultapi.IString "vault-op" ]} ]
  ∧ LogicalRead "secret/test" ∈ calls t
  ∧ SetToken "sess-456" ∈ calls t.
Proof.
  vm_compute. repeat split; ev_find.
Qed.


Lemma Reconcile_requeue_iff_created_witness :
  (run fake (Reconcile Scenario.r Scenario.req) Scenario.world).1.2
  = Returned (ctrl.mkResult true, None).
Proof.
  pose (x := run fake (Reconcile Scenario.r Scenario.req) Scenario.world).
  refine (proj1 (proj2 (Reconcile_requeue_iff_created fake Scenario.world
                          Scenario.r Scenario.req x.1.1 x.1.2 x.2 _))
            Scenario.materialized _).
  - vm_compute. reflexivity.
  - vm_compute. ev_find.
Defined.

Lemma SecretMake_never_fails_witness :
  LogError None ("Failed to generate a Secret resource for the " +:+ "db") []
    ∉ calls (run fake (Reconcile Scenario.r Scenario.req) Scenario.world).1.1.
Proof.
  pose (x := run fake (Reconcile Scenario.r Scenario.req) Scenario.world).
  refine (proj2 (proj2 SecretMake_never_fails) World fake Scenario.world
            Scenario.r Scenario.req x.1.1 x.1.2 x.2 _ None "db" []).
  vm_compute. reflexivity.
Defined.

(** * Further properties of the controller *)

(** ** [newVaultClient] *)

(** X1. [newVaultClient] asks for the default config, then configures TLS
    with the config's [SkipVerify], then builds the client for the
    config's address. It stops at the first step that answers an error
    and returns that error; it returns nil only when all three steps
    succeeded. *)
Theorem newVaultClient_first_error {W} (h : handler W) w r cfg t o w' :
  run h (newVaultClient r cfg) w = (t, o, w') →
  ∃ e1 e2 e3,
    o = Returned (match e1 with Some _ => e1 | None =>
                    match e2 with Some _ => e2 | None => e3 end end)
    ∧ t = Ev VaultDefaultConfig e1
          :: match e1 with
             | Some _ => []
             | None =>
                 Ev (VaultConfigureTLS (SkipVerify cfg)) e2
                 :: match e2 with
                    | Some _ => []
                    | None => [Ev (VaultNewClient (Addr cfg)) e3]
                    end
             end.
Proof.
  unfold newVaultClient. exec.
  - by eexists (Some _), None, None.
  - by eexists None, (Some _), None.
  - by eexists None, None, _.
Qed.

Lemma newVaultClient_first_error_witness :
  let x := run fake (newVaultClient Scenario.r Scenario.ldap) Scenario.noClient in
  ∃ e1 e2 e3,
    x.1.2 = Returned (match e1 with Some _ => e1 | None =>
                        match e2 with Some _ => e2 | None => e3 end end)
    ∧ x.1.1 = Ev VaultDefaultConfig e1
              :: match e1 with
                 | Some _ => []
                 | None =>
                     Ev (VaultConfigureTLS (SkipVerify Scenario.ldap)) e2
                     :: match e2 with
                        | Some _ => []
                        | None => [Ev (VaultNewClient (Addr Scenario.ldap)) e3]
                        end
                 end.
Proof.
  intros x.
  apply (newVaultClient_first_error fake Scenario.noClient Scenario.r
           Scenario.ldap x.1.1 x.1.2 x.2).
  vm_compute. reflexivity.
Defined.

(** ** More on [VaultReadSecret] *)

Lemma method_is_jwt (method : string) :
  bool_decide (method ≠ defaultJWTAuthMethod) = false →
  method = defaultJWTAuthMethod.
Proof.
  intros Hgate. apply bool_decide_eq_false in Hgate.
  by destruct (decide (method = defaultJWTAuthMethod)).
Qed.

(** X2. The login exchange [VaultReadSecret] performs goes to
    [auth/<AuthPath>/login] and carries the token bytes just read from the
    token file, as a string, under ["jwt"], and the config's role under
    ["role"]; it is only performed with the jwt method. *)
Theorem VaultReadSecret_login_request {W} (h : handler W) w r cfg t o w'
    path data ans :
  run h (VaultReadSecret r cfg) w = (t, o, w') →
  Ev (LogicalWrite path data) ans ∈ t →
  AuthMethod cfg = defaultJWTAuthMethod
  ∧ path = "auth/" +:+ AuthPath cfg +:+ "/login"
  ∧ ∃ file jwt,
      Ev (IoutilReadFile file) (jwt, None) ∈ t
      ∧ data = {[ "jwt" := vaultapi.IString (String.string_of_list_byte jwt);
                  "role" := vaultapi.IString (Role cfg) ]}.
Proof.
  exec_fetch; intros Hin; ev_in Hin.
  all: split; [by apply method_is_jwt|].
  all: split; [done|].
  all: eexists _, _; split; [ev_find|done].
Qed.

Lemma VaultReadSecret_login_request_witness :
  let x := run fake (VaultReadSecret Scenario.r (initConfig Scenario.es))
               Scenario.world in
  ∃ file jwt,
    Ev (IoutilReadFile file) (jwt, None) ∈ x.1.1
    ∧ loginData (String.list_byte_of_string "tok-123") "vault-op"
      = {[ "jwt" := vaultapi.IString (String.string_of_list_byte jwt);
           "role" := vaultapi.IString (Role (initConfig Scenario.es)) ]}.
Proof.
  intros x.
  refine (proj2 (proj2 (VaultReadSecret_login_request fake Scenario.world
            Scenario.r (initConfig Scenario.es) x.1.1 x.1.2 x.2
            "auth/kubernetes/login"
            (loginData (String.list_byte_of_string "tok-123") "vault-op")
            (Some Scenario.session, None) _ _))).
  - vm_compute. reflexivity.
  - vm_compute. ev_find.
Defined.

(** X3. A step of [VaultReadSecret] that answers an error ends the fetch:
    the result is a nil payload with that error, and no call of a later
    stage is made (after a failed client construction no token lookup,
    after a failed token read no login, after a failed login no
    [SetToken] and no read). *)
Theorem VaultReadSecret_stops_at_failure {W} (h : handler W) w r cfg t o w'
    ev e :
  run h (VaultReadSecret r cfg) w = (t, o, w') →
  ev ∈ t → fetchError ev = Some e →
  o = Returned (None, Some e)
  ∧ Forall (λ c, fetchStage c ≤ fetchStage (ev_call ev)) (calls t).
Proof.
  exec_fetch; intros Hin Hev; ev_in Hin; subst ev; cbn in Hev; simplify_eq.
  all: split; [done|].
  all: unfold calls; cbn; repeat (apply Forall_cons_2; [cbn; lia|]); apply Forall_nil_2.
Qed.

Lemma VaultReadSecret_stops_at_failure_witness :
  let x := run fake (VaultReadSecret Scenario.r (initConfig Scenario.es))
               Scenario.loginDenied in
  x.1.2 = Returned (None, Some (errorString "permission denied"))
  ∧ Forall (λ c, fetchStage c ≤ 3) (calls x.1.1).
Proof.
  intros x.
  refine (VaultReadSecret_stops_at_failure fake Scenario.loginDenied
            Scenario.r (initConfig Scenario.es) x.1.1 x.1.2 x.2
            (Ev (LogicalWrite "auth/kubernetes/login"
                   (loginData (String.list_byte_of_string "tok-123") "vault-op"))
                (None, Some (errorString "permission denied")))
            (errorString "permission denied") _ _ _).
  - vm_compute. reflexivity.
  - vm_compute. ev_find.
  - reflexivity.
Defined.

(** X4. When [VaultReadSecret] returns without error, the method was jwt,
    no step answered an error, the login answered a secret with an auth
    block whose client token was set on the client, and the payload
    returned is the one the read of the config's path answered. *)
Theorem VaultReadSecret_success {W} (h : handler W) w r cfg t data w' :
  run h (VaultReadSecret r cfg) w = (t, Returned (data, None), w') →
  AuthMethod cfg = defaultJWTAuthMethod
  ∧ (∀ ev, ev ∈ t → fetchError ev = None)
  ∧ (∃ path loginData secret auth,
       Ev (LogicalWrite path loginData) (Some secret, None) ∈ t
       ∧ vaultapi.Auth secret = Some auth
       ∧ SetToken (vaultapi.ClientToken auth) ∈ calls t)
  ∧ Ev (LogicalRead (Path cfg)) (data, None) ∈ t.
Proof.
  exec_fetch.
  all: split; [by apply method_is_jwt|].
  all: split; [intros ev Hin; ev_in Hin; by subst ev|].
  all: split; [|ev_find].
  all: eexists _, _, _, _; split; [ev_find|]; split; [eassumption|].
  all: unfold calls; cbn; ev_find.
Qed.

Lemma VaultReadSecret_success_witness :
  let x := run fake (VaultReadSecret Scenario.r (initConfig Scenario.es))
               Scenario.world in
  Ev (LogicalRead "secret/test") (Some Scenario.payload, None) ∈ x.1.1.
Proof.
  intros x.
  refine (proj2 (proj2 (proj2 (VaultReadSecret_success fake Scenario.world
            Scenario.r (initConfig Scenario.es) x.1.1 (Some Scenario.payload)
            x.2 _)))).
  vm_compute. reflexivity.
Defined.

(** X5. [VaultReadSecret] panics exactly when the login exchange answers
    nil error without a usable auth block: a nil secret, or a secret whose
    [Auth] is nil. *)
Theorem VaultReadSecret_panics_iff {W} (h : handler W) w r cfg t o w' :
  run h (VaultReadSecret r cfg) w = (t, o, w') →
  o = Panicked
  ↔ ∃ path data secret,
      Ev (LogicalWrite path data) (secret, None) ∈ t
      ∧ authClientToken secret = Panicked.
Proof.
  exec_fetch.
  all: split;
    [ intros Ho; first [ discriminate Ho | eexists _, _, _; split; [ev_find|]; cbn;
                         by repeat match goal with H : _ = _ |- _ => rewrite H end ]
    | intros (path & data & secret & Hin & Hauth); try done;
      ev_in Hin; cbn in Hauth;
      repeat match goal with H : vaultapi.Auth _ = _ |- _ => rewrite H in Hauth end;
      done ].
Qed.

Lemma VaultReadSecret_panics_iff_witness :
  (run fake (VaultReadSecret Scenario.r (initConfig Scenario.es))
       Scenario.noAuth).1.2 = Panicked.
Proof.
  pose (x := run fake (VaultReadSecret Scenario.r (initConfig Scenario.es))
                 Scenario.noAuth).
  refine (proj2 (VaultReadSecret_panics_iff fake Scenario.noAuth Scenario.r
                   (initConfig Scenario.es) x.1.1 x.1.2 x.2 _) _).
  - vm_compute. reflexivity.
  - exists "auth/kubernetes/login",
      (loginData (String.list_byte_of_string "tok-123") "vault-op"),
      (Some (vaultapi.mkSecret None ∅)).
    split; [vm_compute; ev_find | reflexivity].
Defined.

(** ** More on [SecretMake] *)

(** On a payload whose ["data"] entry is a map of strings, [SecretMake]
    returns the Secret made of their bytes. *)
Lemma SecretMake_strings r es secret (sm : gmap string string) :
  vaultapi.Data secret !! "data"
    = Some (vaultapi.IMap (vaultapi.IString <$> sm)) →
  SecretMake r es (Some secret)
  = Returned (madeSecret r es (String.list_byte_of_string <$> sm), None).
Proof.
  intros Hdata. unfold SecretMake.
  rewrite rangeData_spec, Hdata. cbn. rewrite copyData_strings. cbn.
  by rewrite (right_id_L ∅ (∪)).
Qed.

(** X6. A payload without a ["data"] entry is not an error for
    [SecretMake]: like a nil payload it gives a Secret with an empty data
    map, whatever else the payload holds. *)
Theorem SecretMake_without_data_entry r es secret :
  vaultapi.Data secret !! "data" = None →
  ∃ s, SecretMake r es (Some secret) = Returned (s, None)
       ∧ core.Data s = ∅
       ∧ SecretMake r es None = Returned (s, None).
Proof.
  intros Hdata. exists (madeSecret r es ∅). unfold SecretMake.
  rewrite rangeData_spec, Hdata. cbn. by rewrite madeSecret_Data.
Qed.

Lemma SecretMake_without_data_entry_witness :
  ∃ s, SecretMake Scenario.r Scenario.es (Some Scenario.session) = Returned (s, None)
       ∧ core.Data s = ∅
       ∧ SecretMake Scenario.r Scenario.es None = Returned (s, None).
Proof.
  apply SecretMake_without_data_entry. vm_compute. reflexivity.
Defined.

(** X7. Reading the bytes of the Secret back as strings gives the values
    of the payload: the data mapping loses nothing, and the Secret has a
    key exactly where the payload's data has one. *)
Theorem SecretMake_round_trip r es secret (sm : gmap string string) s err :
  vaultapi.Data secret !! "data"
    = Some (vaultapi.IMap (vaultapi.IString <$> sm)) →
  SecretMake r es (Some secret) = Returned (s, err) →
  String.string_of_list_byte <$> core.Data s = sm
  ∧ dom (core.Data s) = dom sm.
Proof.
  intros Hdata Hmake. rewrite (SecretMake_strings _ _ _ _ Hdata) in Hmake.
  injection Hmake as <- _. rewrite madeSecret_Data. split.
  - rewrite <- map_fmap_compose. rewrite <- (map_fmap_id sm) at 2.
    apply map_fmap_ext. intros k v _. apply String.string_of_list_byte_of_string.
  - apply dom_fmap_L.
Qed.

Lemma SecretMake_round_trip_witness :
  String.string_of_list_byte <$> core.Data Scenario.materialized
  = {[ "password" := "hunter2" ]}.
Proof.
  refine (proj1 (SecretMake_round_trip Scenario.r Scenario.es Scenario.payload
                   {[ "password" := "hunter2" ]} Scenario.materialized None _ _)).
  - vm_compute. reflexivity.
  - vm_compute. reflexivity.
Defined.

(** X8. [SecretMake] looks at nothing of the payload but its ["data"]
    entry: two payloads with the same entry there give the same outcome,
    panics included. *)
Theorem SecretMake_only_data_entry r es secret1 secret2 :
  vaultapi.Data secret1 !! "data" = vaultapi.Data secret2 !! "data" →
  SecretMake r es (Some secret1) = SecretMake r es (Some secret2).
Proof.
  intros Hdata. unfold SecretMake. by rewrite !rangeData_spec, Hdata.
Qed.

Lemma SecretMake_only_data_entry_witness :
  SecretMake Scenario.r Scenario.es (Some Scenario.payload)
  = SecretMake Scenario.r Scenario.es (Some Scenario.leased).
Proof.
  apply SecretMake_only_data_entry. vm_compute. reflexivity.
Defined.

(** X9. [SecretMake] drops the error of [SetControllerReference]: when the
    scheme does not resolve the resource's type to exactly one kind, it
    still returns a nil error, and the Secret it returns has no owner
    reference. *)
Theorem SecretMake_unresolved_scheme r es secret s err :
  (∀ gvk, runtime.VaultSecretKinds (Scheme r) ≠ [gvk]) →
  SecretMake r es secret = Returned (s, err) →
  err = None ∧ core.OwnerReferences s = [].
Proof.
  intros Hscheme Hmake.
  apply SecretMake_Returned in Hmake as (-> & d & -> & _). split; [done|].
  unfold madeSecret, ctrl.SetControllerReference, ctrl.GVKForObject.
  destruct (ctrl.validateOwner _ _); [done|].
  destruct (runtime.VaultSecretKinds (Scheme r)) as [|gvk [|gvk' kinds]]; try done.
  by destruct (Hscheme gvk).
Qed.

Lemma SecretMake_unresolved_scheme_witness :
  ∃ s, SecretMake (mkReconciler (runtime.mkScheme [])) Scenario.es None
       = Returned (s, None)
       ∧ core.OwnerReferences s = [].
Proof.
  eexists. split; [reflexivity|].
  refine (proj2 (SecretMake_unresolved_scheme (mkReconciler (runtime.mkScheme []))
                   Scenario.es None _ None _ eq_refl)).
  intros gvk. discriminate.
Defined.

(** ** More on [Reconcile] *)

Section fetch_facts.
Context {W : Type} (h : handler W).
Implicit Types (w : W) (t : list event) (cfg : VaultConfig).

(** The read answered without error: its payload is what the fetch returns. *)
Lemma fetch_read_ok r cfg w t o w' path data :
  run h (VaultReadSecret r cfg) w = (t, o, w') →
  Ev (LogicalRead path) (data, None) ∈ t →
  o = Returned (data, None).
Proof. exec_fetch; intros Hin; by ev_in Hin. Qed.

(** A payload returned was read, without error. *)
Lemma fetch_payload r cfg w t payload err w' :
  run h (VaultReadSecret r cfg) w = (t, Returned (Some payload, err), w') →
  err = None ∧ Ev (LogicalRead (Path cfg)) (Some payload, None) ∈ t.
Proof. exec_fetch; (split; [done|ev_find]). Qed.

Lemma fetch_panicked r cfg w t o w' :
  run h (VaultReadSecret r cfg) w = (t, o, w') →
  o = Panicked
  ↔ ∃ path data secret,
      Ev (LogicalWrite path data) (secret, None) ∈ t
      ∧ authClientToken secret = Panicked.
Proof.
  exec_fetch.
  all: split;
    [ intros Ho; first [ discriminate Ho | eexists _, _, _; split; [ev_find|]; cbn;
                         by repeat match goal with H : _ = _ |- _ => rewrite H end ]
    | intros (path & data & secret & Hin & Hauth); try done;
      ev_in Hin; cbn in Hauth;
      repeat match goal with H : vaultapi.Auth _ = _ |- _ => rewrite H in Hauth end;
      done ].
Qed.

(** One attempt of each exchange, and no write to the cluster. *)
Lemma fetch_counts r cfg w t o w' :
  run h (VaultReadSecret r cfg) w = (t, o, w') →
  length (filter isLogin (calls t)) ≤ 1
  ∧ length (filter isRead (calls t)) ≤ 1
  ∧ length (filter isWrite (calls t)) = 0.
Proof. exec_fetch; vm_compute; lia. Qed.

Lemma fetch_configured r cfg w t o w' :
  run h (VaultReadSecret r cfg) w = (t, o, w') →
  Forall (configuredCall cfg) (calls t).
Proof.
  exec_fetch; unfold calls; cbn;
    repeat (apply Forall_cons_2; [done|]); apply Forall_nil_2.
Qed.

(** The fetch does not talk to the Kubernetes API. *)
Lemma fetch_no_api r cfg w t o w' ev :
  run h (VaultReadSecret r cfg) w = (t, o, w') →
  ev ∈ t → apiError ev = None ∧ isChildNotFound ev = false.
Proof. exec_fetch; intros Hin; ev_in Hin; by subst ev. Qed.

(** A fetch that returns without error has logged no error. *)
Lemma fetch_quiet r cfg w t data w' :
  run h (VaultReadSecret r cfg) w = (t, Returned (data, None), w') →
  Forall (λ c, isLogError c = false) (calls t).
Proof.
  exec_fetch; unfold calls; cbn;
    repeat (apply Forall_cons_2; [done|]); apply Forall_nil_2.
Qed.
End fetch_facts.

(** [Hin : e ∈ l] for the trace [l] of the fetch: [e] is no API call. *)
Ltac fetch_api Hin :=
  match goal with
  | Hrun : run _ (VaultReadSecret _ _) _ = (?l, _, _), H' : _ ∈ ?l |- _ =>
      constr_eq Hin H';
      let Hapi := fresh "Hapi" in
      let Hnf := fresh "Hnf" in
      destruct (fetch_no_api _ _ _ _ _ _ _ _ Hrun Hin) as [Hapi Hnf]
  end.

(** X10. When the lookup of the resource itself answers an error,
    [Reconcile] logs it and stops after these three calls. A not-found
    error is swallowed (the resource was deleted): the result is
    success without requeue; any other error is returned. *)
Theorem Reconcile_request_lookup_error {W} (h : handler W) w r req t o w'
    key obj e :
  run h (Reconcile r req) w = (t, o, w') →
  Ev (ClientGetVaultSecret key) (obj, Some e) ∈ t →
  o = Returned (ctrl.Result0,
                if apierrors.IsNotFound (Some e) then None else Some e)
  ∧ calls t =
      [ LogInfo ("starting vaultSecretReconciler for: '" +:+ ctrl.Name req
                   +:+ "'");
        ClientGetVaultSecret (ctrl.NamespacedName req);
        LogError (Some e) "unable to get vaultSecret resource" [] ].
Proof.
  intros Hrun Hin.
  remember (apierrors.IsNotFound (Some e)) as notFound eqn:HnotFound.
  revert Hrun Hin. unfold Reconcile.
  exec; intros Hin; ev_in Hin; try fetch_in Hin; try (cbn in *; discriminate).
  all: split; [|done]; unfold client.IgnoreNotFound; by rewrite <- HnotFound.
Qed.

Lemma Reconcile_request_lookup_error_witness :
  (run fake (Reconcile Scenario.r Scenario.req) Scenario.deleted).1.2
  = Returned (ctrl.Result0, None).
Proof.
  pose (x := run fake (Reconcile Scenario.r Scenario.req) Scenario.deleted).
  refine (proj1 (Reconcile_request_lookup_error fake Scenario.deleted
                   Scenario.r Scenario.req x.1.1 x.1.2 x.2
                   (types.mkNamespacedName "prod" "db") appsv1.zero
                   (StatusError "NotFound" 404
                      "vaultsecrets.apps.vault.op not found")
                   _ _)).
  - vm_compute. reflexivity.
  - vm_compute. ev_find.
Defined.

(** X11. When the lookup of the child Secret answers an error other than
    not-found, [Reconcile] makes exactly four calls, none of them a fetch
    or a create: its first log line, the lookup of the resource, the child
    lookup under the name and namespace of the resource the first lookup
    answered, and the error log. That log call passes a key without a
    value: [Reconcile] returns the error without requeue when the sink
    takes it, and panics when the sink panics on it. *)
Theorem Reconcile_child_lookup_error {W} (h : handler W) w r req t o w'
    key found e :
  run h (Reconcile r req) w = (t, o, w') →
  Ev (ClientGetSecret key) (found, Some e) ∈ t →
  apierrors.IsNotFound (Some e) = false →
  ∃ vaultSecret (verdict : sinkVerdict),
    Ev (ClientGetVaultSecret (ctrl.NamespacedName req)) (vaultSecret, None) ∈ t
    ∧ key = types.mkNamespacedName (appsv1.Namespace vaultSecret)
                                   (appsv1.Name vaultSecret)
    ∧ calls t =
        [ LogInfo ("starting vaultSecretReconciler for: '" +:+ ctrl.Name req
                     +:+ "'");
          ClientGetVaultSecret (ctrl.NamespacedName req);
          ClientGetSecret key;
          LogError (Some e) "unable to get child Secret for the"
                   [appsv1.Name vaultSecret] ]
    ∧ Ev (LogError (Some e) "unable to get child Secret for the"
                   [appsv1.Name vaultSecret]) verdict ∈ t
    ∧ o = match verdict with
          | SinkLogged => Returned (ctrl.Result0, Some e)
          | SinkPanicked => Panicked
          end.
Proof.
  intros Hrun Hin Hnf. revert Hrun Hin. unfold Reconcile.
  exec; intros Hin; ev_in Hin; try fetch_in Hin; try congruence;
    try (cbn in *; congruence).
  all: nil_errs; eexists _, _; split; [ev_find|]; split; [done|].
  all: split; [done|]; split; [ev_find|done].
Qed.

Lemma Reconcile_child_lookup_error_witness :
  let x := run (secretsUnavailableDev (errorString "etcdserver: request timed out"))
               (Reconcile Scenario.r Scenario.req) Scenario.world in
  ∃ vaultSecret (verdict : sinkVerdict),
    Ev (ClientGetVaultSecret (ctrl.NamespacedName Scenario.req))
       (vaultSecret, None) ∈ x.1.1
    ∧ types.mkNamespacedName "prod" "db"
      = types.mkNamespacedName (appsv1.Namespace vaultSecret)
                               (appsv1.Name vaultSecret)
    ∧ calls x.1.1 =
        [ LogInfo ("starting vaultSecretReconciler for: '"
                     +:+ ctrl.Name Scenario.req +:+ "'");
          ClientGetVaultSecret (ctrl.NamespacedName Scenario.req);
          ClientGetSecret (types.mkNamespacedName "prod" "db");
          LogError (Some (errorString "etcdserver: request timed out"))
                   "unable to get child Secret for the"
                   [appsv1.Name vaultSecret] ]
    ∧ Ev (LogError (Some (errorString "etcdserver: request timed out"))
                   "unable to get child Secret for the"
                   [appsv1.Name vaultSecret]) verdict ∈ x.1.1
    ∧ x.1.2 = match verdict with
              | SinkLogged =>
                  Returned (ctrl.Result0,
                            Some (errorString "etcdserver: request timed out"))
              | SinkPanicked => Panicked
              end.
Proof.
  intros x.
  refine (Reconcile_child_lookup_error
            (secretsUnavailableDev (errorString "etcdserver: request timed out"))
            Scenario.world Scenario.r Scenario.req x.1.1 x.1.2 x.2
            (types.mkNamespacedName "prod" "db") core.zero
            (errorString "etcdserver: request timed out") _ _ _).
  - vm_compute. reflexivity.
  - vm_compute. ev_find.
  - reflexivity.
Defined.

(** X12. The Secret [Reconcile] creates is stored under the key it looked
    up before: the name and namespace of the resource that the first
    lookup answered. A later reconciliation of the same resource therefore
    finds it. *)
Theorem Reconcile_create_key {W} (h : handler W) w r req t o w' secret :
  run h (Reconcile r req) w = (t, o, w') →
  ClientCreate secret ∈ calls t →
  ∃ vaultSecret,
    Ev (ClientGetVaultSecret (ctrl.NamespacedName req)) (vaultSecret, None) ∈ t
    ∧ core.Name secret = appsv1.Name vaultSecret
    ∧ core.Namespace secret = appsv1.Namespace vaultSecret
    ∧ ClientGetSecret (types.mkNamespacedName (core.Namespace secret)
                                              (core.Name secret)) ∈ calls t.
Proof.
  unfold Reconcile. exec; intros Hin.
  all: apply list_elem_of_fmap in Hin as (ev & Hc & Hin).
  all: ev_in Hin; try (subst ev; discriminate Hc).
  all: try (fetch_in Hin; rewrite <- ?Hc in *; discriminate).
  all: subst ev; cbn in Hc; injection Hc as ->; made; nil_errs.
  all: destruct (SetControllerReference_frame v
         (core.mkSecret (metav1.mkObjectMeta (appsv1.Name v) (appsv1.Namespace v)
            "" {[ appsv1.APIVersion v := appsv1.Kind v ]} []) x) (Scheme r))
         as (Hname & Hns & _).
  all: fold (madeSecret r v x) in Hname, Hns; cbn in Hname, Hns.
  all: eexists; split; [ev_find|]; split; [done|]; split; [done|].
  all: rewrite Hname, Hns; unfold calls; cbn; ev_find.
Qed.

Lemma Reconcile_create_key_witness :
  let x := run fake (Reconcile Scenario.r Scenario.req) Scenario.world in
  ∃ vaultSecret,
    Ev (ClientGetVaultSecret (ctrl.NamespacedName Scenario.req))
       (vaultSecret, None) ∈ x.1.1
    ∧ core.Name Scenario.materialized = appsv1.Name vaultSecret
    ∧ core.Namespace Scenario.materialized = appsv1.Namespace vaultSecret
    ∧ ClientGetSecret
        (types.mkNamespacedName (core.Namespace Scenario.materialized)
                                (core.Name Scenario.materialized)) ∈ calls x.1.1.
Proof.
  intros x.
  refine (Reconcile_create_key fake Scenario.world Scenario.r Scenario.req
            x.1.1 x.1.2 x.2 Scenario.materialized _ _).
  - vm_compute. reflexivity.
  - vm_compute. ev_find.
Defined.

Lemma count_cons (p : call → bool) (c : call) (l : list call) :
  length (filter p (c :: l)) = (if p c then 1 else 0) + length (filter p l).
Proof. rewrite filter_cons. by destruct (p c). Qed.

Lemma count_app (p : call → bool) (l1 l2 : list call) :
  length (filter p (l1 ++ l2)) = length (filter p l1) + length (filter p l2).
Proof. by rewrite filter_app, length_app. Qed.

(** X13. One reconciliation makes one attempt: at most one login
    exchange, at most one read and at most one [Create]. Nothing is
    retried inside [Reconcile]. *)
Theorem Reconcile_single_attempt {W} (h : handler W) w r req t o w' :
  run h (Reconcile r req) w = (t, o, w') →
  length (filter isLogin (calls t)) ≤ 1
  ∧ length (filter isRead (calls t)) ≤ 1
  ∧ length (filter isWrite (calls t)) ≤ 1.
Proof.
  unfold Reconcile. exec.
  all: try (vm_compute; lia).
  all: match goal with
       | Hrun : run _ (VaultReadSecret _ _) _ = _ |- _ =>
           destruct (fetch_counts _ _ _ _ _ _ _ Hrun) as (Hlogin & Hread & Hwrite)
       end.
  all: unfold calls in *;
    rewrite ?fmap_cons, ?fmap_app, ?fmap_cons, ?count_cons, ?count_app,
      ?count_cons.
  all: cbn; lia.
Qed.

Lemma Reconcile_single_attempt_witness :
  let x := run fake (Reconcile Scenario.r Scenario.req) Scenario.world in
  length (filter isLogin (calls x.1.1)) ≤ 1
  ∧ length (filter isRead (calls x.1.1)) ≤ 1
  ∧ length (filter isWrite (calls x.1.1)) ≤ 1.
Proof.
  intros x.
  apply (Reconcile_single_attempt fake Scenario.world Scenario.r Scenario.req
           x.1.1 x.1.2 x.2).
  vm_compute. reflexivity.
Defined.

Lemma initConfig_AuthPath (vaultSecret : appsv1.VaultSecret) :
  AuthPath (initConfig vaultSecret)
  = if bool_decide (appsv1.AuthPath (appsv1.Spec vaultSecret) = "")
    then "kubernetes" else appsv1.AuthPath (appsv1.Spec vaultSecret).
Proof.
  unfold initConfig; cbn.
  destruct (appsv1.AuthPath (appsv1.Spec vaultSecret)) as [|c s]; [done|].
  cbn. rewrite bool_decide_eq_true_2 by lia. by rewrite bool_decide_eq_false_2.
Qed.

(** X14. The arguments [Reconcile] hands to the Vault client come from the
    resource: [NewClient] gets the resource's address; the login goes to
    the resource's auth path, or to ["kubernetes"] when the resource names
    none; the read is of the resource's path. [ConfigureTLS] is always
    called with [Insecure = false]: the resource cannot ask to skip
    verification. (What the client then verifies is the library's
    business and also depends on its environment.) *)
Theorem Reconcile_vault_arguments {W} (h : handler W) w r req t o w'
    vaultSecret :
  run h (Reconcile r req) w = (t, o, w') →
  Ev (ClientGetVaultSecret (ctrl.NamespacedName req)) (vaultSecret, None) ∈ t →
  Forall
    (λ c, match c with
          | VaultConfigureTLS Insecure => Insecure = false
          | VaultNewClient Address =>
              Address = appsv1.VaultAddress (appsv1.Spec vaultSecret)
          | LogicalWrite path _ =>
              path = "auth/"
                     +:+ (if bool_decide
                               (appsv1.AuthPath (appsv1.Spec vaultSecret) = "")
                          then "kubernetes"
                          else appsv1.AuthPath (appsv1.Spec vaultSecret))
                     +:+ "/login"
          | LogicalRead path => path = appsv1.Path (appsv1.Spec vaultSecret)
          | _ => True
          end)
    (calls t).
Proof.
  unfold Reconcile. exec; intros Hin; ev_in Hin; try fetch_in Hin;
    try (apply Ev_inj in Hin; simplify_eq); cbn in *; try discriminate.
  all: unfold calls; rewrite ?fmap_cons, ?fmap_app, ?fmap_cons.
  all: repeat first [ apply Forall_cons_2; [done|]
                    | apply Forall_app_2
                    | apply Forall_nil_2 ].
  all: match goal with
       | Hrun : run _ (VaultReadSecret _ _) _ = _ |- _ =>
           apply fetch_configured in Hrun;
           refine (Forall_impl _ _ _ Hrun _)
       end.
  all: intros [] Hc; try exact I; unfold configuredCall in Hc;
    first [ exact Hc
          | rewrite Hc, initConfig_AuthPath;
            by match goal with H : bool_decide _ = _ |- _ => rewrite H end ].
Qed.

Lemma Reconcile_vault_arguments_witness :
  let x := run fake (Reconcile Scenario.r Scenario.req) Scenario.world in
  Forall
    (λ c, match c with
          | VaultConfigureTLS Insecure => Insecure = false
          | VaultNewClient Address =>
              Address = appsv1.VaultAddress (appsv1.Spec Scenario.es)
          | LogicalWrite path _ =>
              path = "auth/"
                     +:+ (if bool_decide
                               (appsv1.AuthPath (appsv1.Spec Scenario.es) = "")
                          then "kubernetes"
                          else appsv1.AuthPath (appsv1.Spec Scenario.es))
                     +:+ "/login"
          | LogicalRead path => path = appsv1.Path (appsv1.Spec Scenario.es)
          | _ => True
          end)
    (calls x.1.1).
Proof.
  intros x.
  refine (Reconcile_vault_arguments fake Scenario.world Scenario.r
            Scenario.req x.1.1 x.1.2 x.2 Scenario.es _ _).
  - vm_compute. reflexivity.
  - vm_compute. ev_find.
Defined.

(** [SecretMake] panics exactly on a payload whose ["data"] entry is not a
    map of strings. *)
Lemma SecretMake_Panicked_iff r es secret :
  SecretMake r es secret = Panicked
  ↔ ∃ payload v,
      secret = Some payload
      ∧ vaultapi.Data payload !! "data" = Some v
      ∧ ∀ sm, v ≠ vaultapi.IMap (vaultapi.IString <$> sm).
Proof.
  split.
  - destruct secret as [payload|]; [|by rewrite SecretMake_nil].
    intros Hmake. exists payload.
    destruct (vaultapi.Data payload !! "data") as [v|] eqn:Hdata.
    + exists v. split; [done|]. split; [done|]. intros sm ->.
      by rewrite (SecretMake_strings _ _ _ _ Hdata) in Hmake.
    + unfold SecretMake in Hmake. by rewrite rangeData_spec, Hdata in Hmake.
  - intros (payload & v & -> & Hdata & Hshape).
    destruct (SecretMake r es (Some payload)) as [[s err]|] eqn:Hmake; [|done].
    apply SecretMake_Returned in Hmake as (_ & d & _ & Hrange).
    rewrite rangeData_spec, Hdata in Hrange.
    destruct v; try done. cbn in Hrange.
    apply copyData_spec in Hrange as [sm ->]. by destruct (Hshape sm).
Qed.

(** [H : e ∈ l] for the trace [l] of the fetch inside the run. *)
Ltac ev_lift H :=
  repeat apply list_elem_of_further;
  first [ exact H | apply elem_of_app; left; exact H ].

(** X15. [Reconcile] panics in exactly three situations: the login
    answered nil error without a usable auth block; the read answered a
    payload whose ["data"] entry is not a string-keyed map of strings; or
    the log sink panicked on the key without value that the error log of
    a failed child lookup passes. *)
Theorem Reconcile_panics_iff {W} (h : handler W) w r req t o w' :
  run h (Reconcile r req) w = (t, o, w') →
  o = Panicked
  ↔ (∃ path data secret,
       Ev (LogicalWrite path data) (secret, None) ∈ t
       ∧ authClientToken secret = Panicked)
    ∨ (∃ path payload v,
         Ev (LogicalRead path) (Some payload, None) ∈ t
         ∧ vaultapi.Data payload !! "data" = Some v
         ∧ ∀ sm, v ≠ vaultapi.IMap (vaultapi.IString <$> sm))
    ∨ (∃ err name,
         Ev (LogError err "unable to get child Secret for the" [name])
            SinkPanicked ∈ t).
Proof.
  unfold Reconcile. exec.
  all: split;
    [ (* a panic has one of the three causes *)
      intros Ho; first
        [ discriminate Ho
        | match goal with
          | Hrun : run _ (VaultReadSecret _ _) _ = (_, Panicked, _) |- _ =>
              apply fetch_panicked in Hrun as [Hrun _];
              destruct (Hrun eq_refl) as (path & data & secret & Hin & Hauth);
              left; exists path, data, secret; split; [ev_lift Hin|done]
          | Hmake : SecretMake _ _ _ = Panicked,
            Hrun : run _ (VaultReadSecret _ _) _ = _ |- _ =>
              apply SecretMake_Panicked_iff in Hmake
                as (payload & val & -> & Hdata & Hshape);
              apply fetch_payload in Hrun as [-> Hin];
              right; left; eexists _, payload, val; split; [ev_lift Hin|done]
          end
        | right; right; eexists _, _; ev_find ]
    | (* and each cause makes it panic *)
      intros [(path & data & secret & Hin & Hauth)
             |[(path & payload & val & Hin & Hdata & Hshape)
              |(err & name & Hin)]]; try done;
      ev_in Hin; try (fetch_in Hin; fail);
      match goal with
      | Hrun : run _ (VaultReadSecret _ _) _ = _ |- _ =>
          first
            [ pose proof (proj2 (fetch_panicked _ _ _ _ _ _ _ Hrun)
                            (ex_intro _ path (ex_intro _ data
                               (ex_intro _ secret (conj Hin Hauth)))));
              discriminate
            | pose proof (fetch_read_ok _ _ _ _ _ _ _ _ _ Hrun Hin);
              simplify_eq;
              match goal with
              | Hmake : SecretMake _ _ (Some payload) = Returned _ |- _ =>
                  rewrite (proj2 (SecretMake_Panicked_iff _ _ _)) in Hmake;
                  [discriminate Hmake | by exists payload, val]
              end ]
      end ].
Qed.

Lemma Reconcile_panics_iff_witness :
  (run fake (Reconcile Scenario.r Scenario.req) Scenario.malformedStored).1.2
  = Panicked.
Proof.
  pose (x := run fake (Reconcile Scenario.r Scenario.req)
                 Scenario.malformedStored).
  refine (proj2 (Reconcile_panics_iff fake Scenario.malformedStored Scenario.r
                   Scenario.req x.1.1 x.1.2 x.2 _) _).
  - vm_compute. reflexivity.
  - right; left. exists "secret/test", Scenario.malformed,
      (vaultapi.IMap {[ "port" := vaultapi.INumber "5432" ]}).
    split; [vm_compute; ev_find|]. split; [vm_compute; reflexivity|].
    intros sm [= Heq]. apply (f_equal (.!! "port")) in Heq.
    rewrite lookup_fmap, lookup_singleton_eq in Heq.
    by destruct (sm !! "port").
Defined.

(** X16. End to end: when the read answers a payload whose ["data"] entry
    is a map of strings, [Reconcile] calls [Create] with a Secret that is
    named like the resource and holds exactly those entries as bytes. *)
Theorem Reconcile_creates_payload_data {W} (h : handler W) w r req t o w'
    path payload (sm : gmap string string) :
  run h (Reconcile r req) w = (t, o, w') →
  Ev (LogicalRead path) (Some payload, None) ∈ t →
  vaultapi.Data payload !! "data"
    = Some (vaultapi.IMap (vaultapi.IString <$> sm)) →
  ∃ vaultSecret secret createErr,
    Ev (ClientGetVaultSecret (ctrl.NamespacedName req)) (vaultSecret, None) ∈ t
    ∧ Ev (ClientCreate secret) createErr ∈ t
    ∧ secret = madeSecret r vaultSecret (String.list_byte_of_string <$> sm)
    ∧ core.Data secret = String.list_byte_of_string <$> sm
    ∧ o = Returned (if notNil createErr then (ctrl.Result0, createErr)
                    else (ctrl.mkResult true, None)).
Proof.
  unfold Reconcile. exec; intros Hin Hdata; ev_in Hin.
  all: match goal with
       | Hrun : run _ (VaultReadSecret _ _) _ = _ |- _ =>
           pose proof (fetch_read_ok _ _ _ _ _ _ _ _ _ Hrun Hin); simplify_eq
       end.
  all: match goal with
       | Hmake : SecretMake _ _ _ = _ |- _ =>
           rewrite (SecretMake_strings _ _ _ _ Hdata) in Hmake; simplify_eq
       end.
  all: cbn in *; try discriminate.
  all: nil_errs; eexists _, _, _; split; [ev_find|]; split; [ev_find|].
  all: split; [reflexivity|]; split; [apply madeSecret_Data|].
  all: first [ done | by match goal with H : notNil _ = _ |- _ => rewrite H end ].
Qed.

Lemma Reconcile_creates_payload_data_witness :
  let x := run fake (Reconcile Scenario.r Scenario.req) Scenario.world in
  ∃ vaultSecret secret createErr,
    Ev (ClientGetVaultSecret (ctrl.NamespacedName Scenario.req))
       (vaultSecret, None) ∈ x.1.1
    ∧ Ev (ClientCreate secret) createErr ∈ x.1.1
    ∧ secret = madeSecret Scenario.r vaultSecret
                 (String.list_byte_of_string <$> {[ "password" := "hunter2" ]})
    ∧ core.Data secret
      = String.list_byte_of_string <$> {[ "password" := "hunter2" ]}
    ∧ x.1.2 = Returned (if notNil createErr then (ctrl.Result0, createErr)
                        else (ctrl.mkResult true, None)).
Proof.
  intros x.
  refine (Reconcile_creates_payload_data fake Scenario.world Scenario.r
            Scenario.req x.1.1 x.1.2 x.2 "secret/test" Scenario.payload
            {[ "password" := "hunter2" ]} _ _ _).
  - vm_compute. reflexivity.
  - vm_compute. ev_find.
  - vm_compute. reflexivity.
Defined.

(** X17. When the Vault has nothing at the path (the read answers a nil
    payload and a nil error), [Reconcile] still calls [Create], with a
    Secret whose data is empty; and when that [Create] succeeds, it
    returns [Requeue = true] without having logged any error. *)
Theorem Reconcile_nothing_stored {W} (h : handler W) w r req t o w' path :
  run h (Reconcile r req) w = (t, o, w') →
  Ev (LogicalRead path) (None, None) ∈ t →
  ∃ secret createErr,
    Ev (ClientCreate secret) createErr ∈ t
    ∧ core.Data secret = ∅
    ∧ (createErr = None →
       o = Returned (ctrl.mkResult true, None)
       ∧ Forall (λ c, isLogError c = false) (calls t)).
Proof.
  unfold Reconcile. exec; intros Hin; ev_in Hin.
  all: match goal with
       | Hrun : run _ (VaultReadSecret _ _) _ = _ |- _ =>
           pose proof (fetch_read_ok _ _ _ _ _ _ _ _ _ Hrun Hin); simplify_eq;
           pose proof (fetch_quiet _ _ _ _ _ _ _ Hrun) as Hquiet
       end.
  all: made; cbn in *; try discriminate.
  all: eexists _, _; split; [ev_find|]; split; [apply madeSecret_Data|].
  all: intros ->; cbn in *; try discriminate.
  all: split; [done|].
  all: unfold calls in *; rewrite ?fmap_cons, ?fmap_app, ?fmap_cons.
  all: repeat first [ apply Forall_cons_2; [done|]
                    | apply Forall_app_2; [exact Hquiet|]
                    | apply Forall_nil_2 ].
Qed.

Lemma Reconcile_nothing_stored_witness :
  let x := run fake (Reconcile Scenario.r Scenario.req) Scenario.nothingStored in
  ∃ secret createErr,
    Ev (ClientCreate secret) createErr ∈ x.1.1
    ∧ core.Data secret = ∅
    ∧ (createErr = None →
       x.1.2 = Returned (ctrl.mkResult true, None)
       ∧ Forall (λ c, isLogError c = false) (calls x.1.1)).
Proof.
  intros x.
  refine (Reconcile_nothing_stored fake Scenario.nothingStored Scenario.r
            Scenario.req x.1.1 x.1.2 x.2 "secret/test" _ _).
  - vm_compute. reflexivity.
  - vm_compute. ev_find.
Defined.

(** Find an event with a property in the explicit part of a trace. *)
Ltac ev_exists :=
  apply Exists_exists;
  repeat first [ by apply Exists_cons_hd
               | apply Exists_cons_tl
               | apply Exists_app; right ].

(** X18. An error returned by [Reconcile] is always one the Kubernetes
    API answered (a lookup or the create), and comes without requeue: no
    error of the Vault fetch ever reaches the caller. *)
Theorem Reconcile_error_origin {W} (h : handler W) w r req t res e w' :
  run h (Reconcile r req) w = (t, Returned (res, Some e), w') →
  ctrl.Requeue res = false
  ∧ ∃ ev, ev ∈ t ∧ apiError ev = Some e.
Proof.
  unfold Reconcile. exec.
  all: made; try discriminate.
  all: split; [done|].
  all: try match goal with
           | H : client.IgnoreNotFound ?err = Some _ |- _ =>
               unfold client.IgnoreNotFound in H;
               destruct (apierrors.IsNotFound err); simplify_eq
           end.
  all: ev_exists.
Qed.

Lemma Reconcile_error_origin_witness :
  let x := run (createRefused (errorString "quota exceeded"))
               (Reconcile Scenario.r Scenario.req) Scenario.world in
  ctrl.Requeue ctrl.Result0 = false
  ∧ ∃ ev, ev ∈ x.1.1 ∧ apiError ev = Some (errorString "quota exceeded").
Proof.
  intros x.
  refine (Reconcile_error_origin (createRefused (errorString "quota exceeded"))
            Scenario.world Scenario.r Scenario.req x.1.1 ctrl.Result0
            (errorString "quota exceeded") x.2 _).
  vm_compute. reflexivity.
Defined.

(** X19. [Reconcile] logs every error a collaborator answers, with one
    exception: the not-found answer of the child Secret lookup, which is
    the normal case of a Secret still to be created. *)
Theorem Reconcile_errors_logged {W} (h : handler W) w r req t o w' ev e :
  run h (Reconcile r req) w = (t, o, w') →
  ev ∈ t → answeredError ev = Some e → isChildNotFound ev = false →
  ∃ msg keysAndValues, LogError (Some e) msg keysAndValues ∈ calls t.
Proof.
  unfold Reconcile. exec; intros Hin Herr Hnf; ev_in Hin.
  all: try subst ev.
  all: try match goal with
           | Hrun : run _ (VaultReadSecret _ _) _ = (?l, _, _), H' : _ ∈ ?l |- _ =>
               constr_eq Hin H';
               unfold answeredError in Herr;
               rewrite (proj1 (fetch_no_api _ _ _ _ _ _ _ _ Hrun Hin)) in Herr;
               pose proof (VaultReadSecret_step_failed _ _ _ _ _ _ _ _ _ Hrun Hin Herr);
               simplify_eq
           end.
  all: unfold answeredError, apiError in *.
  all: cbn in *; repeat case_match; simplify_eq; try discriminate;
    try congruence.
  all: try match goal with
           | H : SecretMake _ _ None = Panicked |- _ =>
               rewrite SecretMake_nil in H; discriminate H
           end.
  all: eexists _, _; unfold calls; rewrite ?fmap_cons, ?fmap_app, ?fmap_cons;
    cbn; ev_find.
Qed.

Lemma Reconcile_errors_logged_witness :
  let x := run fake (Reconcile Scenario.r Scenario.req) Scenario.loginDenied in
  ∃ msg keysAndValues,
    LogError (Some (errorString "permission denied")) msg keysAndValues
      ∈ calls x.1.1.
Proof.
  intros x.
  refine (Reconcile_errors_logged fake Scenario.loginDenied Scenario.r
            Scenario.req x.1.1 x.1.2 x.2
            (Ev (LogicalWrite "auth/kubernetes/login"
                   (loginData (String.list_byte_of_string "tok-123") "vault-op"))
                (None, Some (errorString "permission denied")))
            (errorString "permission denied") _ _ _ _).
  - vm_compute. reflexivity.
  - vm_compute. ev_find.
  - reflexivity.
  - reflexivity.
Defined.
